(** * oidcendpoint: the generic endpoint pipeline ([oidcendpoint/endpoint.py])

    A shallow embedding of [set_content_type] and of the methods of the
    [Endpoint] class, with the properties of the request/response pipeline
    proved about them.

    Python objects that are passed by reference and may be updated in place
    (message instances, the endpoint context, the endpoint itself) live in an
    explicit store; the methods are written in a state-and-exception monad
    over that store.  Logging ([logger], [sanitize]) has no influence on any
    result and is left out. *)

From Stdlib Require Import Ascii String.
From stdpp Require Import base gmap strings list fin_maps.

Open Scope string_scope.
Open Scope list_scope.

(** ** Header utility *)

(** A header is a [(name, value)] tuple of strings. *)
Definition header : Type := string * string.

(** [set_content_type(headers, content_type)], lines 39-45. *)
Definition set_content_type (headers : list header) (content_type : string)
  : list header :=
  if bool_decide (("Content-type", content_type) ∈ headers) then headers
  else
    let _headers := filter (λ h : header, h.1 ≠ "Content-type") headers in
    _headers ++ [("Content-type", content_type)].

(** The values of the entries named [Content-type], in order. *)
Definition content_types (headers : list header) : list string :=
  (filter (λ h : header, h.1 = "Content-type") headers).*2.


(** ** Values, messages and exceptions *)

(** The value of a message field or of a dictionary entry: a string, or a
    list of strings (what a repeated form parameter decodes to). *)
Inductive value :=
| VStr (s : string)
| VList (l : list string).

Global Instance value_eq_dec : EqDecision value.
Proof. solve_decision. Defined.

(** A message instance: the class it was created from and its [_dict]. *)
Record Message := mkMessage {
  msg_cls : string;
  msg_dict : gmap string value
}.

(** The exception classes the pipeline names, and any other class.
    A subclass of [ValueError] is caught by [except ValueError] and counts
    as [ValueError] here; [OtherException] stands for a class unrelated to
    the named ones. *)
Inductive exn_class :=
| MissingRequiredAttribute
| MissingRequiredValue
| ValueError
| UnknownOrNoAuthnMethod
| UnAuthorizedClient
| KeyError
| OtherException (name : string).

Global Instance exn_class_eq_dec : EqDecision exn_class.
Proof. solve_decision. Defined.

(** A raised exception: its class and [str(err)]. *)
Record exn := Exn {
  exn_cls : exn_class;
  exn_str : string
}.

(** What a call does: it returns a value or raises. *)
Inductive outcome (A : Type) :=
| Returns (a : A)
| Raises (e : exn).
Arguments Returns {A} a.
Arguments Raises {A} e.

(** ** Requests, keyword arguments and the endpoint context *)

(** The raw request handed to [parse_request]: [None], a dict, or a string. *)
Inductive RawRequest :=
| NoRequest
| DictRequest (d : gmap string value)
| StrRequest (s : string).

(** [if request:] *)
Definition truthy (request : RawRequest) : bool :=
  match request with
  | NoRequest => false
  | DictRequest d => negb (bool_decide (d = ∅))
  | StrRequest s => negb (bool_decide (s = ""))
  end.

(** The key registry is opaque to the pipeline. *)
Inductive KeyJar := mkKeyJar (keys : list (string * string)).

(** [**kwargs]: the entries the pipeline itself reads, typed, and the rest.
    [kw_fragment_enc] holds the truth value of the entry. *)
Record Kwargs := mkKwargs {
  kw_http_headers : option (list header);
  kw_fragment_enc : option bool;
  kw_return_uri : option string;
  kw_other : gmap string value
}.

Definition no_kwargs : Kwargs := mkKwargs None None None ∅.

(** The endpoint context: key registry, SSL flag and the optional event
    sink ([None] when not configured), which records [(label, request)].
    The class of the sink is not among the sources: [events_bool] is the
    truth value [bool(events)] of a configured sink that holds the given
    events (always true for a plain object, non-emptiness for a class with
    [__len__]). *)
Record EndpointContext := mkContext {
  ctx_keyjar : KeyJar;
  verify_ssl : bool;
  events : option (list (string * RawRequest));
  events_bool : list (string * RawRequest) → bool
}.

(** ** The store and the monads *)

(** References to message instances. *)
Definition loc := nat.

(** Everything a callee can reach through its arguments: the message
    instances and the endpoint context. *)
Record Store := mkStore {
  heap : list Message;
  context : EndpointContext
}.

(** Code that is handed the context and messages, but not the endpoint:
    hooks and the external collaborators. Effects persist when it raises. *)
Definition Ext (A : Type) : Type := Store → outcome A * Store.

Global Instance Ext_ret : MRet Ext := λ A a σ, (Returns a, σ).
Global Instance Ext_bind : MBind Ext := λ A B f c σ,
  match c σ with
  | (Returns a, σ') => f a σ'
  | (Raises e, σ') => (Raises e, σ')
  end.

(** [cls(...)] placed in the store. *)
Definition alloc (m : Message) : Ext loc :=
  λ σ, (Returns (length (heap σ)), mkStore (heap σ ++ [m]) (context σ)).

(** Reading the instance behind a reference. *)
Definition load (l : loc) : Ext Message :=
  λ σ, match heap σ !! l with
       | Some m => (Returns m, σ)
       | None => (Raises (Exn (OtherException "ReferenceError") ""), σ)
       end.

(** [msg[key] = v] *)
Definition setitem (l : loc) (key : string) (v : value) : Ext unit :=
  λ σ, match heap σ !! l with
       | Some m =>
           let m' := mkMessage (msg_cls m) (<[key := v]> (msg_dict m)) in
           (Returns (), mkStore (<[l := m']> (heap σ)) (context σ))
       | None => (Raises (Exn (OtherException "ReferenceError") ""), σ)
       end.

(** [endpoint_context.events.store(label, request)] when the sink is set. *)
Definition store_event (label : string) (request : RawRequest) : Ext unit :=
  λ σ, (Returns (),
        match events (context σ) with
        | Some evs =>
            mkStore (heap σ)
                    (mkContext (ctx_keyjar (context σ)) (verify_ssl (context σ))
                               (Some (evs ++ [(label, request)]))
                               (events_bool (context σ)))
        | None => σ
        end).

(** [if endpoint_context.events:] *)
Definition events_truthy (endpoint_context : EndpointContext) : bool :=
  match events endpoint_context with
  | Some evs => events_bool endpoint_context evs
  | None => false
  end.

(** The store after lines 131-132: the event is stored when the sink is
    true. *)
Definition after_event (request : RawRequest) (σ : Store) : Store :=
  if events_truthy (context σ)
  then (store_event "Protocol request" request σ).2
  else σ.

(** A value handed back by a callee that touches nothing. *)
Definition pure_outcome {A} (o : outcome A) : Ext A := λ σ, (o, σ).

(** ** Hook chains and the endpoint *)

(** [meth(endpoint_context, request, client_id, **kwargs)] *)
Definition parse_hook : Type := loc → value → Kwargs → Ext loc.
(** [meth(endpoint_context, response_args, request, **kwargs)] on the
    argument dict and on the response instance. *)
Definition pre_construct_hook : Type :=
  gmap string value → option loc → Kwargs → Ext (gmap string value).
Definition post_construct_hook : Type := loc → option loc → Kwargs → Ext loc.

(** The class attributes of an endpoint type. *)
Record EndpointClass := mkEndpointClass {
  request_cls : string;
  response_cls : string;
  error_cls : string;
  endpoint_name : string;
  endpoint_path : string;
  request_format : string;
  request_placement : string;
  response_format : string;
  response_placement : string;
  client_auth_method : string
}.

(** The defaults of class [Endpoint], lines 49-58. *)
Definition Endpoint_class : EndpointClass :=
  mkEndpointClass "Message" "Message" "ResponseMessage" "" ""
                  "urlencoded" "query" "json" "body" "".

(** An endpoint instance: its class and the fields [__init__] sets. *)
Record Endpoint := mkEndpoint {
  klass : EndpointClass;
  keyjar : KeyJar;
  pre_construct : list pre_construct_hook;
  post_construct : list post_construct_hook;
  post_parse_request : list parse_hook;
  kwargs : Kwargs
}.

(** [Endpoint.__init__(self, keyjar, **kwargs)], lines 60-65. *)
Definition init (cls : EndpointClass) (keyjar : KeyJar) (kwargs : Kwargs)
  : Endpoint :=
  mkEndpoint cls keyjar [] [] [] kwargs.

(** The state a method runs in: [self] and the store. *)
Record World := mkWorld {
  self : Endpoint;
  store : Store
}.

Definition M (A : Type) : Type := World → outcome A * World.

Global Instance M_ret : MRet M := λ A a w, (Returns a, w).
Global Instance M_bind : MBind M := λ A B f c w,
  match c w with
  | (Returns a, w') => f a w'
  | (Raises e, w') => (Raises e, w')
  end.

Definition get_self : M Endpoint := λ w, (Returns (self w), w).
Definition get_context : M EndpointContext :=
  λ w, (Returns (context (store w)), w).
Definition raise {A} (e : exn) : M A := λ w, (Raises e, w).

(** A callee that is not handed [self] runs on the store. *)
Definition lift {A} (c : Ext A) : M A :=
  λ w, let '(r, σ) := c (store w) in (r, mkWorld (self w) σ).

(** The [try:] part of a [try/except]: the outcome, for the handlers. *)
Definition attempt {A} (c : M A) : M (outcome A) :=
  λ w, let '(r, w') := c w in (Returns r, w').

(** [for b in l: x = body(b, x)] *)
Fixpoint for_in {A B} (l : list B) (body : B → A → M A) (x : A) : M A :=
  match l with
  | [] => mret x
  | b :: l' => x' ← body b x; for_in l' body x'
  end.

(** ** External collaborators *)

(** The methods of the message library the pipeline calls. A serializer
    reads the instance; [deserialize] and [verify] may raise. *)
Class MessageLib := {
  (** [cls.c_default]: the fields a new instance of [cls] starts with. *)
  c_default : string → gmap string value;
  (** [_add_value] for the parameter [key] of [cls]: the value stored (as
      given for a parameter the class does not declare, converted for one
      it declares), nothing stored, or an exception. *)
  add_value : string → string → value → outcome (option value);
  (** [cls().deserialize(data, format, ...)]; the last argument holds
      [keyjar=], [verify=] and the keyword arguments of the jwt call. *)
  deserialize : string → string → string →
                option (KeyJar * bool * Kwargs) → Ext Message;
  (** [req.verify(keyjar=keyjar, opponent_id=client_id)] *)
  verify : loc → KeyJar → value → Ext unit;
  to_json : Message → string;
  to_urlencoded : Message → string;
  (** [msg.request(location, fragment_enc)] *)
  msg_request : Message → string → bool → string
}.

(** [oidcendpoint.client_authn.verify_client(endpoint_context, request,
    auth)]: the identity information, or an exception. *)
Class ClientAuthn := {
  verify_client : loc → option string → Ext (gmap string value)
}.

(** [urllib.parse.urlparse(url)]: its query component, the only one the
    pipeline reads, or the exception [urlparse] raises. *)
Class UrlLib := {
  urlparse_query : string → outcome string
}.

(** ** Creating a message instance

    [cls] called with keyword arguments, as [Message.__init__] and
    [from_dict] do it: the instance starts from the defaults of the class;
    a keyword argument whose value is [''] or [['']] is skipped; every
    other one is stored by [_add_value], which may convert it, store
    nothing or raise. When several arguments would raise, the one the dict
    yields first does; the order taken here is that of the map. *)

(** [val == "" or val == [""]] *)
Definition is_blank (val : value) : bool :=
  match val with
  | VStr s => bool_decide (s = "")
  | VList l => bool_decide (l = [""])
  end.

Section Constructor.
Context `{!MessageLib}.

Definition from_dict_entry (cls key : string) (val : value)
  : outcome (option value) :=
  if is_blank val then Returns None else add_value cls key val.

Definition from_dict_errors (cls : string) (kwargs : gmap string value)
  : list exn :=
  omap (λ '(key, val),
          match from_dict_entry cls key val with
          | Raises e => Some e
          | Returns _ => None
          end)
       (map_to_list kwargs).

Definition from_dict_stored (cls : string) (kwargs : gmap string value)
  : gmap string value :=
  map_imap (λ key val,
              match from_dict_entry cls key val with
              | Returns o => o
              | Raises _ => None
              end)
           kwargs.

Definition new_message (cls : string) (kwargs : gmap string value)
  : outcome Message :=
  match from_dict_errors cls kwargs with
  | e :: _ => Raises e
  | [] => Returns (mkMessage cls (from_dict_stored cls kwargs ∪ c_default cls))
  end.

End Constructor.

(** Modelled from the spec: [oidcendpoint.util.OAUTH2_NOCACHE_HEADERS] is
    not among the sources; the spec describes it as a fixed pair of
    no-cache-directive headers, cache-control and pragma. *)
Definition OAUTH2_NOCACHE_HEADERS : list header :=
  [("Pragma", "no-cache"); ("Cache-Control", "no-store")].

(** [s.split(c, 1)]: what stands before the first [c] (all of [s] when
    there is none) and what stands after it (nothing when there is none). *)
Fixpoint before (c : ascii) (s : string) : string :=
  match s with
  | EmptyString => EmptyString
  | String a s' => if Ascii.eqb a c then EmptyString else String a (before c s')
  end.

Fixpoint after (c : ascii) (s : string) : string :=
  match s with
  | EmptyString => EmptyString
  | String a s' => if Ascii.eqb a c then s' else after c s'
  end.

(** [url.split('#', 1)] and then [split('?', 1)] on what is left: the
    text between the first [?] and the fragment. *)
Definition split_query (url : string) : string :=
  after "?"%char (before "#"%char url).

(** ** The methods of [Endpoint] *)

Section Methods.
Context `{!MessageLib, !ClientAuthn, !UrlLib}.

(** [client_authentication], lines 138-149. *)
Definition client_authentication (request : loc) (auth : option string)
    (kw : Kwargs) : M (gmap string value) :=
  lift (verify_client request auth).

(** [do_post_parse_request], lines 151-155. *)
Definition do_post_parse_request (request : loc) (client_id : value)
    (kw : Kwargs) : M loc :=
  self ← get_self;
  for_in (post_parse_request self)
         (λ meth request, lift (meth request client_id kw)) request.

(** [do_pre_construct], lines 157-163. *)
Definition do_pre_construct (response_args : gmap string value)
    (request : option loc) (kw : Kwargs) : M (gmap string value) :=
  self ← get_self;
  for_in (pre_construct self)
         (λ meth response_args, lift (meth response_args request kw))
         response_args.

(** [do_post_construct], lines 165-171. *)
Definition do_post_construct (response_args : loc) (request : option loc)
    (kw : Kwargs) : M loc :=
  self ← get_self;
  for_in (post_construct self)
         (λ meth response_args, lift (meth response_args request kw))
         response_args.

(** [process_request], lines 173-181. *)
Definition process_request (request : option RawRequest)
  : M (gmap string value) :=
  mret ∅.

(** The decoding block of [parse_request], lines 79-95. A keyword
    argument named like one a call passes itself ([keyjar] and [verify] at
    line 85, [client_id] at line 135) is a [TypeError] in Python and is
    taken not to occur. *)
Definition parse_request_decode (request : RawRequest) (kw : Kwargs) : M loc :=
  self ← get_self;
  endpoint_context ← get_context;
  let cls := request_cls (klass self) in
  if truthy request then
    match request with
    | DictRequest d => lift (pure_outcome (new_message cls d) ≫= alloc)
    | StrRequest s =>
        if bool_decide (request_format (klass self) = "jwt") then
          lift (deserialize cls s "jwt"
                  (Some (ctx_keyjar endpoint_context,
                         verify_ssl endpoint_context, kw)) ≫= alloc)
        else if bool_decide (request_format (klass self) = "url") then
          query ← lift (pure_outcome (urlparse_query s));
          lift (deserialize cls query "urlencoded" None ≫= alloc)
        else
          lift (deserialize cls s (request_format (klass self)) None ≫= alloc)
    | NoRequest => lift (pure_outcome (new_message cls ∅) ≫= alloc)
    end
  else lift (pure_outcome (new_message cls ∅) ≫= alloc).

(** The client authentication block of [parse_request], lines 97-115:
    the resolved [_client_id]. *)
Definition parse_request_authn (req : loc) (auth : option string)
    (kw : Kwargs) : M value :=
  self ← get_self;
  r ← attempt (client_authentication req auth kw);
  match r with
  | Raises e =>
      if bool_decide (exn_cls e = UnknownOrNoAuthnMethod) then
        if bool_decide (client_auth_method (klass self) = "") then
          mret (VStr "")
        else raise (Exn UnAuthorizedClient "")
      else raise e
  | Returns auth_info =>
      match auth_info !! "client_id" with
      | Some client_id =>
          lift (setitem req "client_id" client_id);;
          mret client_id
      | None =>
          m ← lift (load req);
          match msg_dict m !! "client_id" with
          | Some client_id => mret client_id
          | None => mret (VStr "")
          end
      end
  end.

(** [except (MissingRequiredAttribute, ValueError, MissingRequiredValue)] *)
Definition is_verify_error (c : exn_class) : bool :=
  match c with
  | MissingRequiredAttribute | ValueError | MissingRequiredValue => true
  | _ => false
  end.

(** The verification block of [parse_request] and what follows it,
    lines 117-136. [self.keyjar] is set by [__init__], so reading it does
    not raise [AttributeError]. *)
Definition parse_request_verify (request : RawRequest) (req : loc)
    (_client_id : value) (kw : Kwargs) : M loc :=
  self ← get_self;
  let keyjar := keyjar self in
  r ← attempt (lift (verify req keyjar _client_id));
  match r with
  | Raises err =>
      if is_verify_error (exn_cls err) then
        lift (pure_outcome
                (new_message (error_cls (klass self))
                   {[ "error" := VStr "invalid_request";
                      "error_description" := VStr (exn_str err) ]})
              ≫= alloc)
      else raise err
  | Returns _ =>
      endpoint_context ← get_context;
      (if events_truthy endpoint_context
       then lift (store_event "Protocol request" request)
       else mret ());;
      do_post_parse_request req _client_id kw;;
      mret req
  end.

(** [parse_request], lines 67-136. *)
Definition parse_request (request : RawRequest) (auth : option string)
    (kw : Kwargs) : M loc :=
  req ← parse_request_decode request kw;
  _client_id ← parse_request_authn req auth kw;
  parse_request_verify request req _client_id kw.

(** [construct], lines 183-202. *)
Definition construct (response_args : gmap string value)
    (request : option loc) (kw : Kwargs) : M loc :=
  response_args ← do_pre_construct response_args request kw;
  self ← get_self;
  response ← lift (pure_outcome
                     (new_message (response_cls (klass self)) response_args)
                   ≫= alloc);
  do_post_construct response request kw.

(** [response_info], lines 204-206. *)
Definition response_info (response_args : gmap string value)
    (request : option loc) (kw : Kwargs) : M loc :=
  construct response_args request kw.

(** What [do_response] returns: the response instance itself, or the dict
    [{'response': resp, 'http_headers': http_headers}]. *)
Inductive Response :=
| MessageResponse (_response : loc)
| DictResponse (response : string) (http_headers : list header).

(** [do_response], lines 208-252. When [set_content_type] hands back the
    caller's list, [extend] also updates that list; the returned list is
    the same either way. *)
Definition do_response (response_args : option (gmap string value))
    (request : option loc) (kw : Kwargs) : M Response :=
  let response_args := default ∅ response_args in
  _response ← response_info response_args request kw;
  m ← lift (load _response);
  if bool_decide (is_Some (msg_dict m !! "error")) then
    mret (MessageResponse _response)
  else
    self ← get_self;
    '(content_type, resp) ←
      (if bool_decide (response_placement (klass self) = "body") then
         if bool_decide (response_format (klass self) = "json") then
           mret ("application/json", to_json m)
         else
           mret ("application/x-www-form-urlencoded", to_urlencoded m)
       else if bool_decide (response_placement (klass self) = "url") then
         let fragment_enc := default false (kw_fragment_enc kw) in
         match kw_return_uri kw with
         | Some return_uri =>
             if fragment_enc
             then mret ("", msg_request m return_uri true)
             else mret ("", msg_request m return_uri false)
         | None => raise (Exn KeyError "'return_uri'")
         end
       else
         raise (Exn ValueError
                  ("Don't know where that is: '" +:+
                   response_placement (klass self))));
    let http_headers :=
      if bool_decide (content_type = "") then []
      else match kw_http_headers kw with
           | Some headers => set_content_type headers content_type
           | None => [("Content-type", content_type)]
           end in
    mret (DictResponse resp (http_headers ++ OAUTH2_NOCACHE_HEADERS)).

End Methods.

(** ** A small instance of the collaborators

    Form decoding as [urllib.parse.parse_qs] and [Message.from_urlencoded]
    do it for a class without a schema, a verifier that checks required
    attributes, plain serializers and a client authentication that knows
    [client_secret_post] and bearer tokens. The endpoint is exercised on
    these in the examples below. *)

(** [s.split(c)] *)
Fixpoint split_on (c : ascii) (s : string) : list string :=
  match s with
  | EmptyString => [EmptyString]
  | String a s' =>
      if Ascii.eqb a c then EmptyString :: split_on c s'
      else match split_on c s' with
           | h :: t => String a h :: t
           | [] => [String a EmptyString]
           end
  end.

Fixpoint contains (c : ascii) (s : string) : bool :=
  match s with
  | EmptyString => false
  | String a s' => Ascii.eqb a c || contains c s'
  end.

(** [s.replace('+', ' ')] *)
Fixpoint plus_to_space (s : string) : string :=
  match s with
  | EmptyString => EmptyString
  | String a s' =>
      String (if Ascii.eqb a "+" then " "%char else a) (plus_to_space s')
  end.

Definition hex_digit (c : ascii) : option N :=
  let n := N_of_ascii c in
  if (48 <=? n)%N && (n <=? 57)%N then Some (n - 48)%N
  else if (65 <=? n)%N && (n <=? 70)%N then Some (n - 55)%N
  else if (97 <=? n)%N && (n <=? 102)%N then Some (n - 87)%N
  else None.

(** [unquote(s)] on the bytes of [s]: [%XX] becomes the byte [XX]. *)
Fixpoint unquote (s : string) : string :=
  match s with
  | EmptyString => EmptyString
  | String c s' =>
      if Ascii.eqb c "%" then
        match s' with
        | String a (String b rest) =>
            match hex_digit a, hex_digit b with
            | Some x, Some y => String (ascii_of_N (16 * x + y)) (unquote rest)
            | _, _ => String c (unquote s')
            end
        | _ => String c (unquote s')
        end
      else String c (unquote s')
  end.

(** [parse_qsl(qs)]: the [name=value] pairs between [&], blank values
    and fields without [=] dropped. *)
Definition parse_qsl (qs : string) : list (string * string) :=
  omap (λ name_value,
          if contains "=" name_value then
            let name := before "=" name_value in
            let val := after "=" name_value in
            if bool_decide (val = "") then None
            else Some (unquote (plus_to_space name),
                       unquote (plus_to_space val))
          else None)
       (split_on "&" qs).

(** [parse_qs(qs)]: the values of each name, in order of appearance. *)
Definition parse_qs (qs : string) : gmap string (list string) :=
  foldl (λ parsed_result '(name, val),
           <[name := default [] (parsed_result !! name) ++ [val]]> parsed_result)
        ∅ (parse_qsl qs).

(** [Message.from_urlencoded] for a class that declares no parameters:
    a single value is unwrapped. *)
Definition from_urlencoded (cls : string) (urlencoded : string)
  : outcome Message :=
  let _info := parse_qs urlencoded in
  if negb (bool_decide (urlencoded = "")) && bool_decide (_info = ∅) then
    Raises (Exn (OtherException "FormatError") "Wrong format")
  else
    Returns (mkMessage cls
               ((λ val, match val with [v] => VStr v | _ => VList val end)
                  <$> _info)).

(** The attributes a message class requires. *)
Definition required_attributes (cls : string) : list string :=
  if bool_decide (cls = "AuthorizationRequest")
  then ["response_type"; "client_id"]
  else if bool_decide (cls = "AccessTokenRequest")
  then ["grant_type"]
  else [].

Definition demo_verify (req : loc) (keyjar : KeyJar) (opponent_id : value)
  : Ext unit :=
  λ σ, match heap σ !! req with
       | None => (Raises (Exn (OtherException "ReferenceError") ""), σ)
       | Some m =>
           match filter (λ a, msg_dict m !! a = None)
                        (required_attributes (msg_cls m)) with
           | a :: _ => (Raises (Exn MissingRequiredAttribute a), σ)
           | [] => (Returns (), σ)
           end
       end.

Definition render_value (v : value) : string :=
  match v with
  | VStr s => s
  | VList l => String.concat " " l
  end.

Definition demo_to_urlencoded (m : Message) : string :=
  String.concat "&"
    ((λ '(k, v), k +:+ "=" +:+ render_value v) <$> map_to_list (msg_dict m)).

Definition dquote : string := String (ascii_of_nat 34) EmptyString.

Definition demo_to_json (m : Message) : string :=
  "{" +:+
  String.concat ", "
    ((λ '(k, v), dquote +:+ k +:+ dquote +:+ ": " +:+
                 dquote +:+ render_value v +:+ dquote)
       <$> map_to_list (msg_dict m)) +:+
  "}".

(** [Message.request(location, fragment_enc)] *)
Definition demo_request (m : Message) (location : string)
    (fragment_enc : bool) : string :=
  if fragment_enc then location +:+ "#" +:+ demo_to_urlencoded m
  else if contains "?" location then location +:+ "&" +:+ demo_to_urlencoded m
  else location +:+ "?" +:+ demo_to_urlencoded m.

Definition demo_deserialize (cls data format : string)
    (jwt_args : option (KeyJar * bool * Kwargs)) : Ext Message :=
  λ σ, if bool_decide (format = "urlencoded") then (from_urlencoded cls data, σ)
       else (Raises (Exn (OtherException "FormatError")
                         ("Unknown serialization method (" +:+ format +:+ ")")),
             σ).

(** Class defaults: an access token request starts with its grant type. *)
Definition demo_c_default (cls : string) : gmap string value :=
  if bool_decide (cls = "AccessTokenRequest")
  then {[ "grant_type" := VStr "authorization_code" ]}
  else ∅.

(** Every value is stored as it is given. *)
Definition demo_add_value (cls key : string) (val : value)
  : outcome (option value) :=
  Returns (Some val).

Definition demo_lib : MessageLib := {|
  c_default := demo_c_default;
  add_value := demo_add_value;
  deserialize := demo_deserialize;
  verify := demo_verify;
  to_json := demo_to_json;
  to_urlencoded := demo_to_urlencoded;
  msg_request := demo_request
|}.

(** Client authentication: a bearer token names its client after the
    colon; without credentials, [client_id] with [client_secret] in the
    request is [client_secret_post]; anything else is no known method. *)
Definition demo_verify_client (request : loc) (auth : option string)
  : Ext (gmap string value) :=
  λ σ, match auth with
       | Some a =>
           if String.prefix "Bearer " a then
             (Returns (if contains ":" a
                       then {[ "token" := VStr (before ":" (after " " a));
                               "client_id" := VStr (after ":" a) ]}
                       else {[ "token" := VStr (after " " a) ]}), σ)
           else (Raises (Exn UnknownOrNoAuthnMethod ""), σ)
       | None =>
           match heap σ !! request with
           | Some m =>
               match msg_dict m !! "client_id", msg_dict m !! "client_secret" with
               | Some cid, Some _ =>
                   (Returns {[ "client_id" := cid;
                               "method" := VStr "client_secret_post" ]}, σ)
               | _, _ => (Raises (Exn UnknownOrNoAuthnMethod ""), σ)
               end
           | None => (Raises (Exn (OtherException "ReferenceError") ""), σ)
           end
       end.

Definition demo_authn : ClientAuthn := {| verify_client := demo_verify_client |}.

(** A context whose sink is a plain object, true whatever it holds, and
    one whose sink tells its truth by its length. *)
Definition demo_context : EndpointContext :=
  mkContext (mkKeyJar []) false (Some []) (λ _, true).

Definition sized_sink_context (evs : list (string * RawRequest))
  : EndpointContext :=
  mkContext (mkKeyJar []) false (Some evs)
            (λ evs, negb (bool_decide (evs = []))).

Definition demo_store : Store := mkStore [] demo_context.

(** An endpoint of the default class, and the world it starts in. *)
Definition demo_endpoint : Endpoint := init Endpoint_class (mkKeyJar []) no_kwargs.

Definition world_of (e : Endpoint) : World := mkWorld e demo_store.

(** Endpoint types that differ from the default in one attribute. *)
Definition with_request_format (fmt : string) : EndpointClass :=
  mkEndpointClass "Message" "Message" "ResponseMessage" "" ""
                  fmt "query" "json" "body" "".

Definition with_request_cls (cls : string) : EndpointClass :=
  mkEndpointClass cls "Message" "ResponseMessage" "" ""
                  "urlencoded" "query" "json" "body" "".

Definition with_client_auth_method (method : string) : EndpointClass :=
  mkEndpointClass "Message" "Message" "ResponseMessage" "" ""
                  "urlencoded" "query" "json" "body" method.

Definition with_response_placement (placement : string) : EndpointClass :=
  mkEndpointClass "Message" "Message" "ResponseMessage" "" ""
                  "urlencoded" "query" "json" placement "".

Definition endpoint_of (cls : EndpointClass) : Endpoint :=
  init cls (mkKeyJar []) no_kwargs.

(** A post-parse hook that answers with a request of its own instead of
    the one it was given. *)
Definition replacing_hook : parse_hook :=
  λ request client_id kw,
    alloc (mkMessage "Message" {[ "replaced" := VStr "yes" ]}).

Definition replacing_endpoint : Endpoint :=
  mkEndpoint Endpoint_class (mkKeyJar []) [] [] [replacing_hook] no_kwargs.

(** More hooks: one that marks the request it is given, in place, and
    hooks that raise. *)
Definition tagging_hook : parse_hook :=
  λ request client_id kw σ,
    match setitem request "seen" (VStr "yes") σ with
    | (Returns _, σ') => (Returns request, σ')
    | (Raises e, σ') => (Raises e, σ')
    end.

Definition raising_hook : parse_hook :=
  λ request client_id kw σ, (Raises (Exn (OtherException "ToOld") "Too old"), σ).

Definition raising_pre_construct : pre_construct_hook :=
  λ response_args request kw σ,
    (Raises (Exn (OtherException "ServiceError") "Unknown user"), σ).

Definition raising_post_construct : post_construct_hook :=
  λ response request kw σ,
    (Raises (Exn (OtherException "ServiceError") "Could not sign"), σ).

(** A message library whose JSON decoder rejects its input with
    [ValueError], and a client authentication that refuses Basic
    credentials. *)
Definition json_deserialize (cls data format : string)
    (jwt_args : option (KeyJar * bool * Kwargs)) : Ext Message :=
  λ σ, if bool_decide (format = "json")
       then (Raises (Exn ValueError "No JSON object could be decoded"), σ)
       else demo_deserialize cls data format jwt_args σ.

Definition json_lib : MessageLib := {|
  c_default := demo_c_default;
  add_value := demo_add_value;
  deserialize := json_deserialize;
  verify := demo_verify;
  to_json := demo_to_json;
  to_urlencoded := demo_to_urlencoded;
  msg_request := demo_request
|}.

Definition basic_verify_client (request : loc) (auth : option string)
  : Ext (gmap string value) :=
  λ σ, match auth with
       | Some a =>
           if String.prefix "Basic " a
           then (Raises (Exn (OtherException "AuthnFailure") "Wrong password"), σ)
           else demo_verify_client request auth σ
       | None => demo_verify_client request auth σ
       end.

Definition basic_authn : ClientAuthn := {| verify_client := basic_verify_client |}.

(** A message library whose verification fails with a [ValueError] that
    carries no text. *)
Definition silent_verify (req : loc) (keyjar : KeyJar) (opponent_id : value)
  : Ext unit :=
  λ σ, (Raises (Exn ValueError ""), σ).

Definition silent_lib : MessageLib := {|
  c_default := demo_c_default;
  add_value := demo_add_value;
  deserialize := demo_deserialize;
  verify := silent_verify;
  to_json := demo_to_json;
  to_urlencoded := demo_to_urlencoded;
  msg_request := demo_request
|}.

(** A post-parse hook that notes, in the request, the client id it was
    handed. *)
Definition recording_hook : parse_hook :=
  λ request client_id kw σ,
    match setitem request "resolved_client_id" client_id σ with
    | (Returns _, σ') => (Returns request, σ')
    | (Raises e, σ') => (Raises e, σ')
    end.

(** [urlparse(url).query] as a recent CPython computes it: leading
    control characters and spaces are stripped and tabs and line breaks
    removed, the scheme and the network location are split off, a network
    location with one bracket and not the other is a [ValueError], and the
    query is what stands between the first [?] and the fragment. The
    further checks made on a bracketed or a non-ASCII host are left out. *)
Fixpoint lstrip_c0 (s : string) : string :=
  match s with
  | EmptyString => EmptyString
  | String c s' => if (N_of_ascii c <=? 32)%N then lstrip_c0 s' else s
  end.

Fixpoint remove_unsafe_bytes (s : string) : string :=
  match s with
  | EmptyString => EmptyString
  | String c s' =>
      let n := N_of_ascii c in
      if (n =? 9)%N || (n =? 10)%N || (n =? 13)%N
      then remove_unsafe_bytes s'
      else String c (remove_unsafe_bytes s')
  end.

Definition is_ascii_alpha (c : ascii) : bool :=
  let n := N_of_ascii c in
  ((65 <=? n)%N && (n <=? 90)%N) || ((97 <=? n)%N && (n <=? 122)%N).

Definition is_scheme_char (c : ascii) : bool :=
  let n := N_of_ascii c in
  is_ascii_alpha c || ((48 <=? n)%N && (n <=? 57)%N)
  || (n =? 43)%N || (n =? 45)%N || (n =? 46)%N.

Fixpoint all_chars (f : ascii → bool) (s : string) : bool :=
  match s with
  | EmptyString => true
  | String c s' => f c && all_chars f s'
  end.

Definition strip_scheme (url : string) : string :=
  match url with
  | EmptyString => url
  | String c _ =>
      if contains ":" url && is_ascii_alpha c
         && all_chars is_scheme_char (before ":" url)
      then after ":" url
      else url
  end.

Fixpoint netloc_end (s : string) : string :=
  match s with
  | EmptyString => EmptyString
  | String c s' =>
      if Ascii.eqb c "/" || Ascii.eqb c "?" || Ascii.eqb c "#"
      then EmptyString
      else String c (netloc_end s')
  end.

Definition netloc_of (url : string) : string :=
  match url with
  | String a (String b rest) =>
      if Ascii.eqb a "/" && Ascii.eqb b "/" then netloc_end rest
      else EmptyString
  | _ => EmptyString
  end.

Definition demo_urlparse_query (url : string) : outcome string :=
  let url := strip_scheme (remove_unsafe_bytes (lstrip_c0 url)) in
  let netloc := netloc_of url in
  if xorb (contains "[" netloc) (contains "]" netloc)
  then Raises (Exn ValueError "Invalid IPv6 URL")
  else Returns (split_query url).

Definition demo_url : UrlLib := {| urlparse_query := demo_urlparse_query |}.

Definition with_response_format (fmt : string) : EndpointClass :=
  mkEndpointClass "Message" "Message" "ResponseMessage" "" ""
                  "urlencoded" "query" fmt "body" "".

(** The keys of the mapping [do_response] returned: the fields of the
    message, or the two keys of the dict. *)
Definition response_keys (r : Response) (σ : Store) : gset string :=
  match r with
  | MessageResponse l =>
      match heap σ !! l with
      | Some m => dom (msg_dict m)
      | None => ∅
      end
  | DictResponse _ _ => {[ "response"; "http_headers" ]}
  end.

(** The fields [__init__] sets are the same in [e] and [e']. *)
Definition same_instance_fields (e e' : Endpoint) : Prop :=
  keyjar e' = keyjar e ∧
  pre_construct e' = pre_construct e ∧
  post_construct e' = post_construct e ∧
  post_parse_request e' = post_parse_request e ∧
  kwargs e' = kwargs e.

(** A computation that leaves [self] as it found it, whatever it returns
    or raises. *)
Definition preserves_self {A} (c : M A) : Prop :=
  ∀ w, self (c w).2 = self w.

(** * Properties *)

(** ** Running the monad *)

Lemma bind_run {A B} (c : M A) (f : A → M B) (w : World) :
  (c ≫= f) w =
  match c w with
  | (Returns a, w') => f a w'
  | (Raises e, w') => (Raises e, w')
  end.
Proof. reflexivity. Qed.

Lemma bind_returns {A B} (c : M A) (f : A → M B) (w w' : World) (a : A) :
  c w = (Returns a, w') → (c ≫= f) w = f a w'.
Proof. intros Hc. rewrite bind_run, Hc. reflexivity. Qed.

Lemma bind_raises {A B} (c : M A) (f : A → M B) (w w' : World) (e : exn) :
  c w = (Raises e, w') → (c ≫= f) w = (Raises e, w').
Proof. intros Hc. rewrite bind_run, Hc. reflexivity. Qed.

Lemma lift_run {A} (c : Ext A) (w : World) :
  lift c w = ((c (store w)).1, mkWorld (self w) (c (store w)).2).
Proof. unfold lift. destruct (c (store w)); reflexivity. Qed.

Lemma attempt_run {A} (c : M A) (w : World) :
  attempt c w = (Returns (c w).1, (c w).2).
Proof. unfold attempt. destruct (c w); reflexivity. Qed.

(** ** The frame: no method writes to [self] *)

Create HintDb frame discriminated.

Lemma preserves_ret {A} (a : A) : preserves_self (mret a : M A).
Proof. intros w. reflexivity. Qed.

Lemma preserves_raise {A} (e : exn) : preserves_self (raise e : M A).
Proof. intros w. reflexivity. Qed.

Lemma preserves_get_self : preserves_self get_self.
Proof. intros w. reflexivity. Qed.

Lemma preserves_get_context : preserves_self get_context.
Proof. intros w. reflexivity. Qed.

Lemma preserves_lift {A} (c : Ext A) : preserves_self (lift c).
Proof. intros w. rewrite lift_run. reflexivity. Qed.

Lemma preserves_attempt {A} (c : M A) :
  preserves_self c → preserves_self (attempt c).
Proof. intros Hc w. rewrite attempt_run. apply Hc. Qed.

Lemma preserves_bind {A B} (c : M A) (f : A → M B) :
  preserves_self c → (∀ a, preserves_self (f a)) → preserves_self (c ≫= f).
Proof.
  intros Hc Hf w. rewrite bind_run. specialize (Hc w).
  destruct (c w) as [[a|e] w']; simpl in *.
  - rewrite Hf. exact Hc.
  - exact Hc.
Qed.

Lemma preserves_for_in {A B} (l : list B) (body : B → A → M A) :
  (∀ b x, preserves_self (body b x)) → ∀ x, preserves_self (for_in l body x).
Proof.
  intros Hbody. induction l as [|b l IH]; intros x; simpl.
  - apply preserves_ret.
  - apply preserves_bind; [apply Hbody | exact IH].
Qed.

Global Hint Resolve preserves_ret preserves_raise preserves_get_self
  preserves_get_context preserves_lift preserves_attempt preserves_for_in
  : frame.

(** Splits a bind, a conditional or a match, and closes the leaves. *)
Ltac frame_step :=
  lazymatch goal with
  | |- preserves_self (_ ≫= _) => apply preserves_bind; [| intros ?]
  | |- preserves_self (if ?b then _ else _) => destruct b
  | |- preserves_self (match ?x with _ => _ end) => destruct x
  | |- preserves_self (let '(_, _) := ?x in _) => destruct x
  | |- _ => solve [auto with frame]
  end.

Ltac frame := repeat frame_step.

Section Frame.
Context `{!MessageLib, !ClientAuthn, !UrlLib}.

Lemma preserves_client_authentication req auth kw :
  preserves_self (client_authentication req auth kw).
Proof. unfold client_authentication. frame. Qed.

Lemma preserves_do_post_parse_request req cid kw :
  preserves_self (do_post_parse_request req cid kw).
Proof. unfold do_post_parse_request. frame. Qed.

Lemma preserves_do_pre_construct args req kw :
  preserves_self (do_pre_construct args req kw).
Proof. unfold do_pre_construct. frame. Qed.

Lemma preserves_do_post_construct resp req kw :
  preserves_self (do_post_construct resp req kw).
Proof. unfold do_post_construct. frame. Qed.

Lemma preserves_process_request req : preserves_self (process_request req).
Proof. unfold process_request. frame. Qed.

Local Hint Resolve preserves_client_authentication
  preserves_do_post_parse_request preserves_do_pre_construct
  preserves_do_post_construct : frame.

Lemma preserves_parse_request_decode request kw :
  preserves_self (parse_request_decode request kw).
Proof. unfold parse_request_decode. frame. Qed.

Lemma preserves_parse_request_authn req auth kw :
  preserves_self (parse_request_authn req auth kw).
Proof. unfold parse_request_authn. frame. Qed.

Lemma preserves_parse_request_verify request req cid kw :
  preserves_self (parse_request_verify request req cid kw).
Proof. unfold parse_request_verify. frame. Qed.

Local Hint Resolve preserves_parse_request_decode
  preserves_parse_request_authn preserves_parse_request_verify : frame.

Lemma preserves_parse_request request auth kw :
  preserves_self (parse_request request auth kw).
Proof. unfold parse_request. frame. Qed.

Lemma preserves_construct args req kw :
  preserves_self (construct args req kw).
Proof. unfold construct. frame. Qed.

Lemma preserves_response_info args req kw :
  preserves_self (response_info args req kw).
Proof. unfold response_info. apply preserves_construct. Qed.

Local Hint Resolve preserves_response_info : frame.

Lemma preserves_do_response args req kw :
  preserves_self (do_response args req kw).
Proof. unfold do_response. frame. Qed.

End Frame.

(** C9. Frame: no pipeline operation writes onto the endpoint. After
    [parse_request], [client_authentication], [construct], [response_info],
    [do_response] and each of the three hook-chain runners, whether the
    call returned or raised, the fields [keyjar], [pre_construct],
    [post_construct], [post_parse_request] and [kwargs] of the endpoint are
    what they were before the call. *)
Theorem endpoint_fields_unchanged `{!MessageLib, !ClientAuthn, !UrlLib}
    (w : World) (raw : RawRequest) (auth : option string) (kw : Kwargs)
    (req : loc) (client_id : value) (request : option loc)
    (response_args : gmap string value)
    (opt_args : option (gmap string value)) :
  same_instance_fields (self w) (self (parse_request raw auth kw w).2) ∧
  same_instance_fields (self w) (self (client_authentication req auth kw w).2) ∧
  same_instance_fields (self w) (self (construct response_args request kw w).2) ∧
  same_instance_fields (self w) (self (response_info response_args request kw w).2) ∧
  same_instance_fields (self w) (self (do_response opt_args request kw w).2) ∧
  same_instance_fields (self w)
    (self (do_post_parse_request req client_id kw w).2) ∧
  same_instance_fields (self w)
    (self (do_pre_construct response_args request kw w).2) ∧
  same_instance_fields (self w)
    (self (do_post_construct req request kw w).2).
Proof.
  assert (Hsame : ∀ e e', e' = e → same_instance_fields e e')
    by (intros e e' ->; repeat split).
  repeat match goal with |- _ ∧ _ => split end; apply Hsame.
  - apply preserves_parse_request.
  - apply preserves_client_authentication.
  - apply preserves_construct.
  - apply preserves_response_info.
  - apply preserves_do_response.
  - apply preserves_do_post_parse_request.
  - apply preserves_do_pre_construct.
  - apply preserves_do_post_construct.
Qed.

(** ** The header utility *)

Example set_content_type_replaces :
  set_content_type [("Accept", "*/*"); ("Content-type", "text/html")]
                   "application/json"
  = [("Accept", "*/*"); ("Content-type", "application/json")].
Proof. reflexivity. Qed.

Example set_content_type_no_op :
  set_content_type [("Content-type", "application/json"); ("Accept", "*/*")]
                   "application/json"
  = [("Content-type", "application/json"); ("Accept", "*/*")].
Proof. reflexivity. Qed.

Lemma content_types_cons (h : header) (H : list header) :
  content_types (h :: H) =
  if decide (h.1 = "Content-type") then h.2 :: content_types H
  else content_types H.
Proof.
  unfold content_types. rewrite filter_cons.
  destruct (decide (h.1 = "Content-type")); reflexivity.
Qed.

Lemma content_types_app (H1 H2 : list header) :
  content_types (H1 ++ H2) = content_types H1 ++ content_types H2.
Proof. unfold content_types. rewrite filter_app, fmap_app. reflexivity. Qed.

Lemma content_types_removed (H : list header) :
  content_types (filter (λ h : header, h.1 ≠ "Content-type") H) = [].
Proof.
  induction H as [|h H IH]; [reflexivity|].
  rewrite filter_cons. destruct (decide (h.1 ≠ "Content-type")) as [Hne|Heq].
  - rewrite content_types_cons. destruct (decide (h.1 = "Content-type")); [done|].
    exact IH.
  - exact IH.
Qed.

Lemma content_types_elem (H : list header) (C : string) :
  ("Content-type", C) ∈ H → C ∈ content_types H.
Proof.
  intros Hin. unfold content_types. apply list_elem_of_fmap.
  exists ("Content-type", C). split; [reflexivity|].
  apply list_elem_of_filter. split; [reflexivity | exact Hin].
Qed.

Lemma set_content_type_present (H : list header) (C : string) :
  ("Content-type", C) ∈ H → set_content_type H C = H.
Proof.
  intros Hin. unfold set_content_type. rewrite bool_decide_eq_true_2; done.
Qed.

Lemma set_content_type_absent (H : list header) (C : string) :
  ("Content-type", C) ∉ H →
  set_content_type H C =
  filter (λ h : header, h.1 ≠ "Content-type") H ++ [("Content-type", C)].
Proof.
  intros Hin. unfold set_content_type. rewrite bool_decide_eq_false_2; done.
Qed.

Lemma set_content_type_elem (H : list header) (C : string) :
  ("Content-type", C) ∈ set_content_type H C.
Proof.
  destruct (decide (("Content-type", C) ∈ H)) as [Hin|Hnin].
  - rewrite set_content_type_present; done.
  - rewrite set_content_type_absent by done. set_solver.
Qed.

Lemma set_content_type_idempotent (H : list header) (C : string) :
  set_content_type (set_content_type H C) C = set_content_type H C.
Proof. apply set_content_type_present, set_content_type_elem. Qed.

(** C3, as the code has it. For every header list [H] and content type
    [C], [set_content_type] is idempotent and its result holds the entry
    [('Content-type', C)]. When [H] has at most one entry named
    [Content-type], or does not hold the exact pair yet, the result has
    exactly one entry named [Content-type], and its value is [C]. When [H]
    already holds the pair, [H] is returned as it is. *)
Theorem set_content_type_idempotent_single (H : list header) (C : string) :
  set_content_type (set_content_type H C) C = set_content_type H C ∧
  ("Content-type", C) ∈ set_content_type H C ∧
  (("Content-type", C) ∈ H → set_content_type H C = H) ∧
  ((length (content_types H) ≤ 1)%nat ∨ ("Content-type", C) ∉ H →
   content_types (set_content_type H C) = [C]).
Proof.
  split; [apply set_content_type_idempotent|].
  split; [apply set_content_type_elem|].
  split; [apply set_content_type_present|].
  intros Hone.
  destruct (decide (("Content-type", C) ∈ H)) as [Hin|Hnin].
  - destruct Hone as [Hlen|Hnin]; [|done].
    rewrite set_content_type_present by done.
    apply content_types_elem in Hin.
    destruct (content_types H) as [|c [|c' l]]; simpl in Hlen.
    + set_solver.
    + apply list_elem_of_singleton in Hin. by subst.
    + lia.
  - rewrite set_content_type_absent by done.
    rewrite content_types_app, content_types_removed. reflexivity.
Qed.

(** The amended C3 at a list with one other [Content-type] entry. *)
Lemma set_content_type_idempotent_single_witness :
  let H := [("Accept", "*/*"); ("Content-type", "text/html")] in
  (length (content_types H) ≤ 1)%nat ∧
  content_types (set_content_type H "application/json") = ["application/json"].
Proof.
  split; [vm_compute; lia|].
  apply (set_content_type_idempotent_single
           [("Accept", "*/*"); ("Content-type", "text/html")]
           "application/json").
  left. vm_compute. lia.
Defined.

(** C3 as stated fails: a list that holds the pair and a second
    [Content-type] entry is returned unchanged, with both entries. *)
Lemma set_content_type_keeps_duplicates :
  ¬ (content_types
       (set_content_type [("Content-type", "application/json");
                          ("Content-type", "text/html")]
                         "application/json")
     = ["application/json"]).
Proof. vm_compute. discriminate. Qed.

(** ** The constructor of messages *)

Section ConstructorFacts.
Context `{!MessageLib}.

Lemma new_message_empty (cls : string) :
  new_message cls ∅ = Returns (mkMessage cls (c_default cls)).
Proof.
  unfold new_message, from_dict_errors, from_dict_stored.
  rewrite map_to_list_empty, map_imap_empty. simpl.
  rewrite (left_id_L ∅ (∪)). reflexivity.
Qed.

Lemma new_message_returns (cls : string) (kwargs : gmap string value) :
  (∀ key val, kwargs !! key = Some val →
              ∃ o, from_dict_entry cls key val = Returns o) →
  new_message cls kwargs
  = Returns (mkMessage cls (from_dict_stored cls kwargs ∪ c_default cls)).
Proof.
  intros Hentries. unfold new_message.
  assert (Hnone : from_dict_errors cls kwargs = []); [|rewrite Hnone; reflexivity].
  unfold from_dict_errors.
  assert (Hall : Forall (λ kv : string * value, kwargs !! kv.1 = Some kv.2)
                        (map_to_list kwargs)).
  { apply Forall_forall. intros [key val] Hin. simpl.
    apply elem_of_map_to_list. exact Hin. }
  induction Hall as [|[key val] l Hkv _ IH]; [reflexivity|].
  simpl in *. destruct (Hentries key val Hkv) as [o ->]. exact IH.
Qed.

Lemma new_message_fields (cls : string) (kwargs : gmap string value)
    (m : Message) :
  new_message cls kwargs = Returns m →
  msg_cls m = cls ∧
  ∀ key,
    msg_dict m !! key =
    match kwargs !! key with
    | Some val =>
        match from_dict_entry cls key val with
        | Returns (Some stored) => Some stored
        | _ => c_default cls !! key
        end
    | None => c_default cls !! key
    end.
Proof.
  unfold new_message. destruct (from_dict_errors cls kwargs); [|discriminate].
  intros [= <-]. split; [reflexivity|]. intros key. simpl.
  unfold from_dict_stored. rewrite lookup_union, map_lookup_imap.
  destruct (kwargs !! key) as [val|]; simpl.
  - destruct (from_dict_entry cls key val) as [[stored|]|e]; simpl;
      destruct (c_default cls !! key); reflexivity.
  - destruct (c_default cls !! key); reflexivity.
Qed.

(** A keyword argument whose value is blank leaves the class default. *)
Lemma new_message_blank (cls : string) (kwargs : gmap string value)
    (m : Message) (key : string) (val : value) :
  new_message cls kwargs = Returns m →
  kwargs !! key = Some val →
  is_blank val = true →
  msg_dict m !! key = c_default cls !! key.
Proof.
  intros Hnew Hkey Hblank. destruct (new_message_fields _ _ _ Hnew) as [_ Hfields].
  rewrite Hfields, Hkey. unfold from_dict_entry. rewrite Hblank. reflexivity.
Qed.

End ConstructorFacts.

Lemma lift_alloc (c : Ext Message) (w : World) :
  lift (c ≫= alloc) w =
  match c (store w) with
  | (Returns m, σ) =>
      (Returns (length (heap σ)),
       mkWorld (self w) (mkStore (heap σ ++ [m]) (context σ)))
  | (Raises e, σ) => (Raises e, mkWorld (self w) σ)
  end.
Proof.
  unfold lift, mbind, Ext_bind.
  destruct (c (store w)) as [[m|e] σ]; reflexivity.
Qed.

Lemma lift_new (o : outcome Message) (w : World) :
  lift (pure_outcome o ≫= alloc) w =
  match o with
  | Returns m =>
      (Returns (length (heap (store w))),
       mkWorld (self w) (mkStore (heap (store w) ++ [m]) (context (store w))))
  | Raises e => (Raises e, mkWorld (self w) (store w))
  end.
Proof. destruct o; reflexivity. Qed.

(** ** Response emission *)

Lemma lift_load (l : loc) (m : Message) (w : World) :
  heap (store w) !! l = Some m → lift (load l) w = (Returns m, w).
Proof.
  destruct w as [e σ]. simpl. intros Hl.
  unfold lift, load. simpl. rewrite Hl. reflexivity.
Qed.

Section Emission.
Context `{!MessageLib, !ClientAuthn}.
Variables (response_args : option (gmap string value)) (request : option loc).
Variables (kw : Kwargs) (w w' : World) (_response : loc) (m : Message).
Hypothesis Hinfo :
  response_info (default ∅ response_args) request kw w = (Returns _response, w').
Hypothesis Hload : heap (store w') !! _response = Some m.

Lemma response_info_self : self w' = self w.
Proof.
  pose proof (preserves_response_info (default ∅ response_args) request kw w)
    as Hself.
  rewrite Hinfo in Hself. exact Hself.
Qed.

(** [do_response] once [response_info] has returned: the test for an
    error, then the dispatch on the placement. *)
Lemma do_response_after_info :
  do_response response_args request kw w =
  (if bool_decide (is_Some (msg_dict m !! "error")) then
     mret (MessageResponse _response)
   else
     '(content_type, resp) ←
       (if bool_decide (response_placement (klass (self w)) = "body") then
          if bool_decide (response_format (klass (self w)) = "json") then
            mret ("application/json", to_json m)
          else mret ("application/x-www-form-urlencoded", to_urlencoded m)
        else if bool_decide (response_placement (klass (self w)) = "url") then
          match kw_return_uri kw with
          | Some return_uri =>
              mret ("", msg_request m return_uri
                          (default false (kw_fragment_enc kw)))
          | None => raise (Exn KeyError "'return_uri'")
          end
        else
          raise (Exn ValueError
                   ("Don't know where that is: '" +:+
                    response_placement (klass (self w)))));
     mret (DictResponse resp
             ((if bool_decide (content_type = "") then []
               else match kw_http_headers kw with
                    | Some headers => set_content_type headers content_type
                    | None => [("Content-type", content_type)]
                    end) ++ OAUTH2_NOCACHE_HEADERS))) w'.
Proof.
  unfold do_response.
  rewrite (bind_returns _ _ _ _ _ Hinfo).
  rewrite (bind_returns _ _ _ _ _ (lift_load _ _ _ Hload)).
  destruct (bool_decide (is_Some (msg_dict m !! "error"))); [reflexivity|].
  rewrite (bind_returns get_self _ w' w' (self w')) by reflexivity.
  rewrite response_info_self.
  destruct (bool_decide (response_placement (klass (self w)) = "body"));
    [reflexivity|].
  destruct (bool_decide (response_placement (klass (self w)) = "url"));
    [|reflexivity].
  destruct (kw_return_uri kw); [|reflexivity].
  destruct (kw_fragment_enc kw) as [[]|]; reflexivity.
Qed.

End Emission.

(** C2, as the code has it. When the value [response_info] produced
    carries an [error] field, [do_response] returns that value itself, the
    same instance and not a mapping that holds it under a [response] key;
    nothing is serialized and no header is added, so the keys of what is
    returned are the fields of the error message, and the store is as
    [response_info] left it. *)
Theorem do_response_error_verbatim `{!MessageLib, !ClientAuthn}
    (response_args : option (gmap string value)) (request : option loc)
    (kw : Kwargs) (w w' : World) (_response : loc) (m : Message) :
  response_info (default ∅ response_args) request kw w = (Returns _response, w') →
  heap (store w') !! _response = Some m →
  is_Some (msg_dict m !! "error") →
  do_response response_args request kw w
    = (Returns (MessageResponse _response), w') ∧
  response_keys (MessageResponse _response) (store w') = dom (msg_dict m).
Proof.
  intros Hinfo Hload Herr. split.
  - rewrite (do_response_after_info _ _ _ _ _ _ _ Hinfo Hload).
    rewrite bool_decide_eq_true_2 by exact Herr. reflexivity.
  - simpl. rewrite Hload. reflexivity.
Qed.

(** C6. With a [response_placement] that is neither [body] nor [url],
    [do_response] on a response without an [error] field raises
    [ValueError] and returns nothing. *)
Theorem do_response_unknown_placement `{!MessageLib, !ClientAuthn}
    (response_args : option (gmap string value)) (request : option loc)
    (kw : Kwargs) (w w' : World) (_response : loc) (m : Message) :
  response_info (default ∅ response_args) request kw w = (Returns _response, w') →
  heap (store w') !! _response = Some m →
  msg_dict m !! "error" = None →
  response_placement (klass (self w)) ≠ "body" →
  response_placement (klass (self w)) ≠ "url" →
  do_response response_args request kw w
    = (Raises (Exn ValueError
                 ("Don't know where that is: '" +:+
                  response_placement (klass (self w)))), w').
Proof.
  intros Hinfo Hload Herr Hbody Hurl.
  rewrite (do_response_after_info _ _ _ _ _ _ _ Hinfo Hload).
  rewrite bool_decide_eq_false_2 by (rewrite Herr; apply is_Some_None).
  rewrite bind_run.
  rewrite (bool_decide_eq_false_2 _ Hbody), (bool_decide_eq_false_2 _ Hurl).
  reflexivity.
Qed.

(** C7. With placement [body] and format [json], [do_response] on a
    response without an [error] field returns the dict whose [response] is
    the JSON serialization of the instance and whose [http_headers] is a
    list that holds [('Content-type', 'application/json')] and ends with
    the two no-cache headers: the caller's list passed through
    [set_content_type], or the single entry when no list was given. *)
Theorem do_response_body_json `{!MessageLib, !ClientAuthn}
    (response_args : option (gmap string value)) (request : option loc)
    (kw : Kwargs) (w w' : World) (_response : loc) (m : Message) :
  response_info (default ∅ response_args) request kw w = (Returns _response, w') →
  heap (store w') !! _response = Some m →
  msg_dict m !! "error" = None →
  response_placement (klass (self w)) = "body" →
  response_format (klass (self w)) = "json" →
  ∃ headers : list header,
    do_response response_args request kw w
      = (Returns (DictResponse (to_json m) (headers ++ OAUTH2_NOCACHE_HEADERS)),
         w') ∧
    ("Content-type", "application/json") ∈ headers ∧
    headers = match kw_http_headers kw with
              | Some caller => set_content_type caller "application/json"
              | None => [("Content-type", "application/json")]
              end.
Proof.
  intros Hinfo Hload Herr Hbody Hjson.
  eexists. split; [|split; [|reflexivity]].
  - rewrite (do_response_after_info _ _ _ _ _ _ _ Hinfo Hload).
    rewrite bool_decide_eq_false_2 by (rewrite Herr; apply is_Some_None).
    rewrite bind_run.
    rewrite (bool_decide_eq_true_2 _ Hbody), (bool_decide_eq_true_2 _ Hjson).
    reflexivity.
  - destruct (kw_http_headers kw) as [caller|].
    + apply set_content_type_elem.
    + apply list_elem_of_singleton. reflexivity.
Qed.

(** C10. With placement [url], whenever [do_response] on a response
    without an [error] field returns, its [http_headers] is the two
    no-cache headers and nothing else, whatever [http_headers] the caller
    passed; and it does return, with the redirect built on [return_uri],
    when that keyword argument is given. *)
Theorem do_response_url_headers `{!MessageLib, !ClientAuthn}
    (response_args : option (gmap string value)) (request : option loc)
    (kw : Kwargs) (w w' : World) (_response : loc) (m : Message) :
  response_info (default ∅ response_args) request kw w = (Returns _response, w') →
  heap (store w') !! _response = Some m →
  msg_dict m !! "error" = None →
  response_placement (klass (self w)) = "url" →
  (∀ return_uri, kw_return_uri kw = Some return_uri →
     do_response response_args request kw w
       = (Returns (DictResponse
                     (msg_request m return_uri
                        (default false (kw_fragment_enc kw)))
                     OAUTH2_NOCACHE_HEADERS), w')) ∧
  (∀ resp w'', do_response response_args request kw w = (Returns resp, w'') →
     ∃ body, resp = DictResponse body OAUTH2_NOCACHE_HEADERS).
Proof.
  intros Hinfo Hload Herr Hurl.
  assert (Hnot_body : response_placement (klass (self w)) ≠ "body")
    by (rewrite Hurl; discriminate).
  rewrite (do_response_after_info _ _ _ _ _ _ _ Hinfo Hload).
  rewrite bool_decide_eq_false_2 by (rewrite Herr; apply is_Some_None).
  rewrite bind_run.
  rewrite (bool_decide_eq_false_2 _ Hnot_body), (bool_decide_eq_true_2 _ Hurl).
  split.
  - intros return_uri ->. reflexivity.
  - intros resp w''. destruct (kw_return_uri kw) as [return_uri|]; simpl.
    + intros [= <- <-]. eexists. reflexivity.
    + discriminate.
Qed.

(** C2 at response arguments that carry [error]: the error message comes
    back as it is. *)
Lemma do_response_error_verbatim_witness :
  ∃ w', @do_response demo_lib
          (Some {[ "error" := VStr "access_denied" ]}) None no_kwargs
          (world_of demo_endpoint)
        = (Returns (MessageResponse 0), w') ∧
        response_keys (MessageResponse 0) (store w') = {[ "error" ]}.
Proof.
  set (m := mkMessage "Message" {[ "error" := VStr "access_denied" ]}).
  exists (mkWorld demo_endpoint (mkStore [m] demo_context)).
  destruct (@do_response_error_verbatim demo_lib demo_authn
              (Some {[ "error" := VStr "access_denied" ]}) None no_kwargs
              (world_of demo_endpoint)
              (mkWorld demo_endpoint (mkStore [m] demo_context)) 0 m)
    as [Hret Hkeys].
  - vm_compute. reflexivity.
  - reflexivity.
  - exists (VStr "access_denied"). vm_compute. reflexivity.
  - split; [exact Hret|]. rewrite Hkeys. vm_compute. reflexivity.
Defined.

(** C2 as stated fails: on an error, what [do_response] returns is the
    message, whose only key is [error]; there is no [response] key. *)
Lemma do_response_error_has_no_response_key :
  let r := @do_response demo_lib
             (Some {[ "error" := VStr "access_denied" ]}) None no_kwargs
             (world_of demo_endpoint) in
  r.1 = Returns (MessageResponse 0) ∧
  "response" ∉ response_keys (MessageResponse 0) (store r.2).
Proof.
  split; [vm_compute; reflexivity|].
  intros Hin.
  assert (Hkeys : response_keys (MessageResponse 0)
                    (store (@do_response demo_lib
                              (Some {[ "error" := VStr "access_denied" ]})
                              None no_kwargs (world_of demo_endpoint)).2)
                  = {[ "error" ]}) by (vm_compute; reflexivity).
  rewrite Hkeys in Hin. apply elem_of_singleton in Hin. discriminate Hin.
Qed.

(** C6 at an endpoint whose placement is [header]. *)
Lemma do_response_unknown_placement_witness :
  ∃ w', @do_response demo_lib
          (Some {[ "subject" := VStr "acct:foo@example.com" ]}) None no_kwargs
          (world_of (endpoint_of (with_response_placement "header")))
        = (Raises (Exn ValueError "Don't know where that is: 'header"), w').
Proof.
  set (m := mkMessage "Message" {[ "subject" := VStr "acct:foo@example.com" ]}).
  set (e := endpoint_of (with_response_placement "header")).
  exists (mkWorld e (mkStore [m] demo_context)).
  apply (@do_response_unknown_placement demo_lib demo_authn
           (Some {[ "subject" := VStr "acct:foo@example.com" ]}) None no_kwargs
           (world_of e) (mkWorld e (mkStore [m] demo_context)) 0 m).
  - vm_compute. reflexivity.
  - reflexivity.
  - vm_compute. reflexivity.
  - vm_compute. discriminate.
  - vm_compute. discriminate.
Defined.

(** C7 at the default endpoint, with a caller's header list that holds
    another content type. *)
Lemma do_response_body_json_witness :
  ∃ w', @do_response demo_lib
          (Some {[ "subject" := VStr "acct:foo@example.com" ]}) None
          (mkKwargs (Some [("Content-type", "text/html"); ("X-Frame-Options", "DENY")])
                    None None ∅)
          (world_of demo_endpoint)
        = (Returns
             (DictResponse
                (demo_to_json
                   (mkMessage "Message"
                      {[ "subject" := VStr "acct:foo@example.com" ]}))
                ([("X-Frame-Options", "DENY");
                  ("Content-type", "application/json")]
                 ++ OAUTH2_NOCACHE_HEADERS)), w').
Proof.
  set (m := mkMessage "Message" {[ "subject" := VStr "acct:foo@example.com" ]}).
  set (kw := mkKwargs (Some [("Content-type", "text/html");
                             ("X-Frame-Options", "DENY")]) None None ∅).
  exists (mkWorld demo_endpoint (mkStore [m] demo_context)).
  destruct (@do_response_body_json demo_lib demo_authn
              (Some {[ "subject" := VStr "acct:foo@example.com" ]}) None kw
              (world_of demo_endpoint)
              (mkWorld demo_endpoint (mkStore [m] demo_context)) 0 m)
    as (headers & Hret & _ & ->).
  - vm_compute. reflexivity.
  - reflexivity.
  - vm_compute. reflexivity.
  - reflexivity.
  - reflexivity.
  - exact Hret.
Defined.

(** C10 at an endpoint with placement [url]: the caller's header list is
    not in the result. *)
Lemma do_response_url_headers_witness :
  ∃ w', @do_response demo_lib
          (Some {[ "code" := VStr "abc" ]}) None
          (mkKwargs (Some [("X-Frame-Options", "DENY")]) None
                    (Some "https://rp.example/cb") ∅)
          (world_of (endpoint_of (with_response_placement "url")))
        = (Returns
             (DictResponse "https://rp.example/cb?code=abc"
                           OAUTH2_NOCACHE_HEADERS), w').
Proof.
  set (m := mkMessage "Message" {[ "code" := VStr "abc" ]}).
  set (e := endpoint_of (with_response_placement "url")).
  set (kw := mkKwargs (Some [("X-Frame-Options", "DENY")]) None
                      (Some "https://rp.example/cb") ∅).
  exists (mkWorld e (mkStore [m] demo_context)).
  destruct (@do_response_url_headers demo_lib demo_authn
              (Some {[ "code" := VStr "abc" ]}) None kw
              (world_of e) (mkWorld e (mkStore [m] demo_context)) 0 m)
    as [Hret _].
  - vm_compute. reflexivity.
  - reflexivity.
  - vm_compute. reflexivity.
  - reflexivity.
  - exact (Hret "https://rp.example/cb" eq_refl).
Defined.

(** ** Request parsing *)

Lemma for_in_app {A B} (l1 l2 : list B) (body : B → A → M A) (x : A) (w : World) :
  for_in (l1 ++ l2) body x w = (for_in l1 body x ≫= for_in l2 body) w.
Proof.
  revert x w. induction l1 as [|b l1 IH]; intros x w; simpl.
  - reflexivity.
  - rewrite !bind_run. destruct (body b x w) as [[x'|e] w1]; [|reflexivity].
    rewrite IH, bind_run. reflexivity.
Qed.

Lemma lookup_alloc (m : Message) (σ : Store) :
  heap (alloc m σ).2 !! length (heap σ) = Some m.
Proof. simpl. apply list_lookup_middle. reflexivity. Qed.

Section Parsing.
Context `{!MessageLib, !ClientAuthn, !UrlLib}.
Variables (request : RawRequest) (auth : option string) (kw : Kwargs).
Variables (w w1 : World) (req : loc).
Hypothesis Hdecode : parse_request_decode request kw w = (Returns req, w1).

Lemma decode_self : self w1 = self w.
Proof.
  pose proof (preserves_parse_request_decode request kw w) as Hself.
  rewrite Hdecode in Hself. exact Hself.
Qed.

(** The hook chain runs the hooks in the configured order, each on the
    value the one before it returned. *)
Lemma do_post_parse_request_threads (meth : parse_hook) (client_id : value) :
  post_parse_request (self w1) = meth :: tl (post_parse_request (self w1)) →
  do_post_parse_request req client_id kw w1 =
  (request' ← lift (meth req client_id kw);
   for_in (tl (post_parse_request (self w1)))
          (λ meth request, lift (meth request client_id kw)) request') w1.
Proof.
  intros Hhooks. unfold do_post_parse_request.
  rewrite (bind_returns get_self _ w1 w1 (self w1)) by reflexivity.
  rewrite Hhooks at 1. reflexivity.
Qed.

(** The verification block by the outcome of [verify]. *)
Lemma parse_request_verify_run (client_id : value) (w2 : World) :
  parse_request_verify request req client_id kw w2 =
  match verify req (keyjar (self w2)) client_id (store w2) with
  | (Raises err, σ) =>
      if is_verify_error (exn_cls err) then
        lift (pure_outcome
                (new_message (error_cls (klass (self w2)))
                   {[ "error" := VStr "invalid_request";
                      "error_description" := VStr (exn_str err) ]})
              ≫= alloc) (mkWorld (self w2) σ)
      else (Raises err, mkWorld (self w2) σ)
  | (Returns _, σ) =>
      (do_post_parse_request req client_id kw;; mret req)
        (mkWorld (self w2) (after_event request σ))
  end.
Proof.
  unfold parse_request_verify.
  rewrite (bind_returns get_self _ w2 w2 (self w2)) by reflexivity.
  rewrite bind_run, attempt_run, lift_run.
  destruct (verify req (keyjar (self w2)) client_id (store w2))
    as [[[]|err] σ]; simpl.
  - rewrite bind_run. simpl. unfold after_event.
    destruct (events_truthy (context σ)).
    + rewrite bind_run, lift_run. reflexivity.
    + rewrite bind_run. reflexivity.
  - destruct (is_verify_error (exn_cls err)); reflexivity.
Qed.

(** When verification passes, [parse_request] hands back [req], the
    reference it decoded, whatever the hook chain returned. *)
Lemma parse_request_verify_passed (client_id : value) (w2 w3 : World)
    (σ : Store) (request' : loc) :
  verify req (keyjar (self w2)) client_id (store w2) = (Returns (), σ) →
  do_post_parse_request req client_id kw
    (mkWorld (self w2) (after_event request σ))
    = (Returns request', w3) →
  parse_request_verify request req client_id kw w2 = (Returns req, w3).
Proof.
  intros Hverify Hchain. rewrite parse_request_verify_run, Hverify.
  rewrite (bind_returns _ _ _ _ _ Hchain). reflexivity.
Qed.

Section Authenticated.
Variables (client_id : value) (w2 : World).
Hypothesis Hauthn : parse_request_authn req auth kw w1 = (Returns client_id, w2).

Lemma authn_self : self w2 = self w.
Proof.
  pose proof (preserves_parse_request_authn req auth kw w1) as Hself.
  rewrite Hauthn in Hself. simpl in Hself. rewrite Hself. apply decode_self.
Qed.

Lemma parse_request_stages :
  parse_request request auth kw w =
  parse_request_verify request req client_id kw w2.
Proof.
  unfold parse_request.
  rewrite (bind_returns _ _ _ _ _ Hdecode), (bind_returns _ _ _ _ _ Hauthn).
  reflexivity.
Qed.

End Authenticated.
End Parsing.

(** C4, as the code has it. When the verification of the decoded request
    raises [MissingRequiredAttribute], [MissingRequiredValue] or
    [ValueError], [parse_request] does not raise: it returns a new instance
    of the error class whose [error] is [invalid_request] and, when
    [str(err)] is not empty, whose [error_description] is [str(err)]; an
    empty [str(err)] is skipped by the constructor and leaves
    [error_description] at the default of the class. This is for an error
    class that stores the two strings as they are given, as
    [ResponseMessage] does. Any other exception of the verification comes
    out of [parse_request] as it was raised. *)
Theorem parse_request_verification_failure `{!MessageLib, !ClientAuthn, !UrlLib}
    (request : RawRequest) (auth : option string) (kw : Kwargs)
    (w w1 w2 : World) (req : loc) (client_id : value) (err : exn) (σ : Store) :
  parse_request_decode request kw w = (Returns req, w1) →
  parse_request_authn req auth kw w1 = (Returns client_id, w2) →
  verify req (keyjar (self w)) client_id (store w2) = (Raises err, σ) →
  add_value (error_cls (klass (self w))) "error" (VStr "invalid_request")
    = Returns (Some (VStr "invalid_request")) →
  (exn_str err ≠ "" →
   add_value (error_cls (klass (self w))) "error_description"
     (VStr (exn_str err))
   = Returns (Some (VStr (exn_str err)))) →
  (exn_cls err = MissingRequiredAttribute ∨
   exn_cls err = MissingRequiredValue ∨
   exn_cls err = ValueError →
   ∃ r w' m,
     parse_request request auth kw w = (Returns r, w') ∧
     heap (store w') !! r = Some m ∧
     msg_cls m = error_cls (klass (self w)) ∧
     msg_dict m !! "error" = Some (VStr "invalid_request") ∧
     (exn_str err ≠ "" →
      msg_dict m !! "error_description" = Some (VStr (exn_str err))) ∧
     (exn_str err = "" →
      msg_dict m !! "error_description"
      = c_default (error_cls (klass (self w))) !! "error_description")) ∧
  (exn_cls err ≠ MissingRequiredAttribute →
   exn_cls err ≠ MissingRequiredValue →
   exn_cls err ≠ ValueError →
   parse_request request auth kw w = (Raises err, mkWorld (self w) σ)).
Proof.
  intros Hdecode Hauthn Hverify Herror Hdescription.
  pose proof (authn_self _ _ _ _ _ _ Hdecode _ _ Hauthn) as Hself.
  rewrite (parse_request_stages _ _ _ _ _ _ Hdecode _ _ Hauthn).
  rewrite parse_request_verify_run, Hself, Hverify.
  set (cls := error_cls (klass (self w))) in *.
  set (kwargs := ({[ "error" := VStr "invalid_request";
                    "error_description" := VStr (exn_str err) ]}
                  : gmap string value)).
  split.
  - intros Hcls.
    assert (Hcaught : is_verify_error (exn_cls err) = true)
      by (destruct Hcls as [-> | [-> | ->]]; reflexivity).
    rewrite Hcaught.
    assert (Hkey_error : kwargs !! "error" = Some (VStr "invalid_request"))
      by apply lookup_insert_eq.
    assert (Hkey_description :
              kwargs !! "error_description" = Some (VStr (exn_str err))).
    { unfold kwargs. rewrite lookup_insert_ne by discriminate.
      apply lookup_singleton_eq. }
    assert (Hnew : ∃ m, new_message cls kwargs = Returns m).
    { eexists. apply new_message_returns. intros key val Hkey.
      unfold kwargs in Hkey.
      apply lookup_insert_Some in Hkey as [[<- <-] | [_ Hkey]].
      - exists (Some (VStr "invalid_request")). exact Herror.
      - apply lookup_singleton_Some in Hkey as [<- <-].
        unfold from_dict_entry. simpl. case_bool_decide as Hempty.
        + eexists. reflexivity.
        + eexists. apply Hdescription. exact Hempty. }
    destruct Hnew as [m Hnew]. rewrite lift_new, Hnew.
    destruct (new_message_fields _ _ _ Hnew) as [Hm_cls Hfields].
    eexists (length (heap σ)), _, m. split; [reflexivity|]. simpl.
    split; [apply list_lookup_middle; reflexivity|].
    split; [exact Hm_cls|].
    split; [|split].
    + rewrite Hfields, Hkey_error. unfold from_dict_entry. simpl.
      rewrite Herror. reflexivity.
    + intros Hnonempty. rewrite Hfields, Hkey_description.
      unfold from_dict_entry. simpl.
      rewrite (bool_decide_eq_false_2 _ Hnonempty), (Hdescription Hnonempty).
      reflexivity.
    + intros Hempty. rewrite Hfields, Hkey_description.
      unfold from_dict_entry. simpl.
      rewrite (bool_decide_eq_true_2 _ Hempty). reflexivity.
  - intros Hattr Hval Hvalue.
    assert (Hcaught : is_verify_error (exn_cls err) = false)
      by (destruct (exn_cls err); done).
    rewrite Hcaught. reflexivity.
Qed.

(** C4 at an authorization request without [response_type]: the
    verification raises [MissingRequiredAttribute] and [parse_request]
    returns the error message, with the missing attribute as
    [error_description]. *)
Lemma parse_request_verification_failure_witness :
  ∃ r w' m,
    @parse_request demo_lib demo_authn demo_url
      (DictRequest {[ "scope" := VStr "openid" ]}) None no_kwargs
      (world_of (endpoint_of (with_request_cls "AuthorizationRequest")))
    = (Returns r, w') ∧
    heap (store w') !! r = Some m ∧
    msg_cls m = "ResponseMessage" ∧
    msg_dict m !! "error" = Some (VStr "invalid_request") ∧
    msg_dict m !! "error_description" = Some (VStr "response_type").
Proof.
  edestruct (@parse_request_verification_failure demo_lib demo_authn demo_url
               (DictRequest {[ "scope" := VStr "openid" ]}) None no_kwargs
               (world_of (endpoint_of (with_request_cls "AuthorizationRequest"))))
    as [Hcaught _].
  - vm_compute. reflexivity.
  - vm_compute. reflexivity.
  - vm_compute. reflexivity.
  - reflexivity.
  - intros _. reflexivity.
  - destruct Hcaught as (r & w' & m & Hret & Hm & Hm_cls & Herror & Hdescr & _);
      [left; reflexivity|].
    exists r, w', m. split; [exact Hret|]. split; [exact Hm|].
    split; [exact Hm_cls|]. split; [exact Herror|].
    apply Hdescr. discriminate.
Defined.

(** C4 as stated fails: when the verification raises a [ValueError] whose
    text is empty, the error instance that [parse_request] returns has no
    [error_description]; it is not the empty failure detail. *)
Lemma parse_request_empty_detail_is_dropped :
  let r := @parse_request silent_lib demo_authn demo_url
             (DictRequest {[ "scope" := VStr "openid" ]}) None no_kwargs
             (world_of demo_endpoint) in
  r.1 = Returns 1 ∧
  (heap (store r.2) !! 1 ≫= λ m : Message, msg_dict m !! "error")
    = Some (VStr "invalid_request") ∧
  (heap (store r.2) !! 1 ≫= λ m : Message, msg_dict m !! "error_description")
    ≠ Some (VStr "").
Proof.
  split; [vm_compute; reflexivity|].
  split; [vm_compute; reflexivity|].
  assert (Hnone :
            (heap (store (@parse_request silent_lib demo_authn demo_url
                            (DictRequest {[ "scope" := VStr "openid" ]}) None
                            no_kwargs (world_of demo_endpoint)).2) !! 1
             ≫= λ m : Message, msg_dict m !! "error_description") = None)
    by (vm_compute; reflexivity).
  intros Hsome. rewrite Hnone in Hsome. discriminate Hsome.
Qed.

(** C5, as the code has it. When the client authentication signals that
    no known method was used: an endpoint whose [client_auth_method] is
    empty goes on, the authentication step returning normally with the
    request as the delegate left it, every field of it in place, and with
    the resolved client id left empty, also when the request carries a
    [client_id]; an endpoint with a non-empty [client_auth_method] raises
    [UnAuthorizedClient] out of [parse_request]. *)
Theorem parse_request_no_authn_method `{!MessageLib, !ClientAuthn, !UrlLib}
    (request : RawRequest) (auth : option string) (kw : Kwargs)
    (w w1 : World) (req : loc) (e : exn) (σ : Store) :
  parse_request_decode request kw w = (Returns req, w1) →
  verify_client req auth (store w1) = (Raises e, σ) →
  exn_cls e = UnknownOrNoAuthnMethod →
  (client_auth_method (klass (self w)) = "" →
   parse_request_authn req auth kw w1 = (Returns (VStr ""), mkWorld (self w) σ) ∧
   parse_request request auth kw w =
     parse_request_verify request req (VStr "") kw (mkWorld (self w) σ)) ∧
  (client_auth_method (klass (self w)) ≠ "" →
   parse_request request auth kw w =
     (Raises (Exn UnAuthorizedClient ""), mkWorld (self w) σ)).
Proof.
  intros Hdecode Hclient Hcls.
  pose proof (decode_self _ _ _ _ _ Hdecode) as Hself.
  assert (Hstep : parse_request_authn req auth kw w1 =
                  (if bool_decide (client_auth_method (klass (self w)) = "")
                   then mret (VStr "")
                   else raise (Exn UnAuthorizedClient "")) (mkWorld (self w) σ)).
  { unfold parse_request_authn.
    rewrite (bind_returns get_self _ w1 w1 (self w1)) by reflexivity.
    rewrite bind_run, attempt_run. unfold client_authentication.
    rewrite lift_run, Hclient. simpl.
    rewrite (bool_decide_eq_true_2 _ Hcls), Hself. reflexivity. }
  split.
  - intros Hnone. rewrite (bool_decide_eq_true_2 _ Hnone) in Hstep.
    split; [exact Hstep|].
    apply (parse_request_stages _ _ _ _ _ _ Hdecode _ _ Hstep).
  - intros Hsome. rewrite (bool_decide_eq_false_2 _ Hsome) in Hstep.
    unfold parse_request.
    rewrite (bind_returns _ _ _ _ _ Hdecode), (bind_raises _ _ _ _ _ Hstep).
    reflexivity.
Qed.

(** C5 at a request without credentials: the default endpoint goes on and
    returns the request, its [client_id] still in it; an endpoint that
    requires [client_secret_basic] raises [UnAuthorizedClient]. *)
Lemma parse_request_no_authn_method_witness :
  (∃ w',
     @parse_request demo_lib demo_authn demo_url
       (DictRequest {[ "client_id" := VStr "client_1" ]}) None no_kwargs
       (world_of demo_endpoint)
     = (Returns 0, w') ∧
     heap (store w') !! 0 =
       Some (mkMessage "Message" {[ "client_id" := VStr "client_1" ]})) ∧
  (∃ w',
     @parse_request demo_lib demo_authn demo_url
       (DictRequest {[ "client_id" := VStr "client_1" ]}) None no_kwargs
       (world_of (endpoint_of (with_client_auth_method "client_secret_basic")))
     = (Raises (Exn UnAuthorizedClient ""), w')).
Proof.
  split.
  - edestruct (@parse_request_no_authn_method demo_lib demo_authn demo_url
                 (DictRequest {[ "client_id" := VStr "client_1" ]}) None
                 no_kwargs (world_of demo_endpoint))
      as [Hgoes_on _].
    + vm_compute. reflexivity.
    + vm_compute. reflexivity.
    + reflexivity.
    + destruct (Hgoes_on eq_refl) as [_ ->].
      eexists. split; vm_compute; reflexivity.
  - edestruct (@parse_request_no_authn_method demo_lib demo_authn demo_url
                 (DictRequest {[ "client_id" := VStr "client_1" ]}) None
                 no_kwargs
                 (world_of (endpoint_of
                              (with_client_auth_method "client_secret_basic"))))
      as [_ Hraises].
    + vm_compute. reflexivity.
    + vm_compute. reflexivity.
    + reflexivity.
    + eexists. apply Hraises. vm_compute. discriminate.
Defined.

(** C5 as stated fails: the request carries [client_id = client_1], the
    endpoint requires no authentication method and the authentication
    signals no known method; the client id the post-parse hook is handed,
    which it notes in the request, is the empty string and not the
    [client_id] of the request. *)
Lemma parse_request_ignores_request_client_id :
  let e := mkEndpoint Endpoint_class (mkKeyJar []) [] [] [recording_hook]
             no_kwargs in
  let r := @parse_request demo_lib demo_authn demo_url
             (DictRequest {[ "client_id" := VStr "client_1" ]}) None no_kwargs
             (world_of e) in
  r.1 = Returns 0 ∧
  (heap (store r.2) !! 0 ≫= λ m : Message, msg_dict m !! "client_id")
    = Some (VStr "client_1") ∧
  (heap (store r.2) !! 0 ≫= λ m : Message, msg_dict m !! "resolved_client_id")
    = Some (VStr "") ∧
  (heap (store r.2) !! 0 ≫= λ m : Message, msg_dict m !! "resolved_client_id")
    ≠ Some (VStr "client_1").
Proof.
  assert (Hresolved :
            (heap (store (@parse_request demo_lib demo_authn demo_url
                            (DictRequest {[ "client_id" := VStr "client_1" ]})
                            None no_kwargs
                            (world_of
                               (mkEndpoint Endpoint_class (mkKeyJar []) [] []
                                  [recording_hook] no_kwargs))).2) !! 0
             ≫= λ m : Message, msg_dict m !! "resolved_client_id")
            = Some (VStr "")) by (vm_compute; reflexivity).
  split; [vm_compute; reflexivity|].
  split; [vm_compute; reflexivity|].
  split; [exact Hresolved|].
  intros Hsome. rewrite Hresolved in Hsome. discriminate Hsome.
Qed.

(** ** Decoding a URL *)

Lemma append_empty_r (s : string) : s +:+ "" = s.
Proof.
  induction s as [|a s IH]; [reflexivity|].
  change (String a s +:+ "") with (String a (s +:+ "")). rewrite IH. reflexivity.
Qed.

Lemma before_app (c : ascii) (s t : string) :
  contains c s = false → before c (s +:+ t) = s +:+ before c t.
Proof.
  induction s as [|a s IH]; simpl; [reflexivity|].
  destruct (Ascii.eqb a c); simpl; [discriminate|].
  intros Hs. rewrite IH by exact Hs. reflexivity.
Qed.

Lemma before_absent (c : ascii) (s : string) :
  contains c s = false → before c s = s.
Proof.
  induction s as [|a s IH]; simpl; [reflexivity|].
  destruct (Ascii.eqb a c); simpl; [discriminate|].
  intros Hs. rewrite IH by exact Hs. reflexivity.
Qed.

Lemma after_app (c : ascii) (s t : string) :
  contains c s = false → after c (s +:+ t) = after c t.
Proof.
  induction s as [|a s IH]; simpl; [reflexivity|].
  destruct (Ascii.eqb a c); simpl; [discriminate|]. exact IH.
Qed.

Lemma contains_app (c : ascii) (s t : string) :
  contains c (s +:+ t) = contains c s || contains c t.
Proof.
  induction s as [|a s IH]; simpl; [reflexivity|].
  rewrite IH, orb_assoc. reflexivity.
Qed.

Lemma split_query_plain (location query : string) :
  contains "?" location = false →
  contains "#" location = false →
  contains "#" query = false →
  split_query (location +:+ "?" +:+ query) = query.
Proof.
  intros Hq Hf Hfq. unfold split_query.
  rewrite before_absent.
  - rewrite after_app by exact Hq. reflexivity.
  - rewrite contains_app, Hf. simpl. exact Hfq.
Qed.

Lemma split_query_fragment (location query fragment : string) :
  contains "?" location = false →
  contains "#" location = false →
  contains "#" query = false →
  split_query (location +:+ "?" +:+ query +:+ "#" +:+ fragment) = query.
Proof.
  intros Hq Hf Hfq. unfold split_query.
  rewrite (before_app "#" location _ Hf). simpl.
  change ("" +:+ query +:+ "#" +:+ fragment) with (query +:+ String "#" fragment).
  rewrite (before_app "#" query (String "#" fragment) Hfq). simpl.
  rewrite (after_app "?" location _ Hq). simpl.
  apply append_empty_r.
Qed.

(** The decoding of a non-empty string, by request format. *)
Lemma parse_request_decode_string `{!MessageLib, !UrlLib} (s : string)
    (kw : Kwargs) (w : World) :
  s ≠ "" →
  parse_request_decode (StrRequest s) kw w =
  lift ((if bool_decide (request_format (klass (self w)) = "jwt") then
           deserialize (request_cls (klass (self w))) s "jwt"
             (Some (ctx_keyjar (context (store w)),
                    verify_ssl (context (store w)), kw))
         else if bool_decide (request_format (klass (self w)) = "url") then
           pure_outcome (urlparse_query s) ≫= λ query,
             deserialize (request_cls (klass (self w))) query "urlencoded" None
         else
           deserialize (request_cls (klass (self w))) s
             (request_format (klass (self w))) None) ≫= alloc) w.
Proof.
  intros Hs. unfold parse_request_decode.
  rewrite (bind_returns get_self _ w w (self w)) by reflexivity.
  rewrite (bind_returns get_context _ w w (context (store w))) by reflexivity.
  simpl. rewrite (bool_decide_eq_false_2 _ Hs). simpl.
  destruct (bool_decide (request_format (klass (self w)) = "jwt")); [reflexivity|].
  destruct (bool_decide (request_format (klass (self w)) = "url")); [|reflexivity].
  destruct (urlparse_query s) as [query|e];
    unfold mbind, M_bind, Ext_bind, lift, pure_outcome; simpl; [|reflexivity].
  destruct (deserialize (request_cls (klass (self w))) query "urlencoded" None
              (store w)) as [[m|e] σ]; reflexivity.
Qed.

Lemma parse_request_decode_url `{!MessageLib, !UrlLib} (s query : string)
    (kw : Kwargs) (w : World) :
  request_format (klass (self w)) = "url" →
  s ≠ "" →
  urlparse_query s = Returns query →
  parse_request_decode (StrRequest s) kw w =
  lift (deserialize (request_cls (klass (self w))) query "urlencoded" None
        ≫= alloc) w.
Proof.
  intros Hformat Hs Hquery.
  rewrite (parse_request_decode_string s kw w Hs), Hformat. simpl.
  unfold mbind, Ext_bind, lift, pure_outcome. rewrite Hquery. reflexivity.
Qed.

(** C8. An endpoint with request format [url] that is given a URL string
    hands the decoder the query component that [urlparse] finds in it, as
    form-urlencoded data, and nothing else of the URL: two URLs with the
    same query component are decoded alike, whatever their scheme, host,
    path and fragment, and the message the decoder returns is the request
    instance. A string in which [urlparse] finds no URL and raises is not
    decoded: [parse_request] raises the same exception. On
    [https://op.example/authorize?foo=bar&baz=qux] the request
    [parse_request] returns holds exactly [foo = bar] and [baz = qux]; so
    it does when scheme, host, path and fragment are others; escaped
    parameters are decoded; and a host with an unmatched bracket is a
    [ValueError]. *)
Theorem parse_request_url_decodes_query :
  (∀ (lib : MessageLib) (url : UrlLib) (s query : string) (kw : Kwargs)
     (w : World),
     request_format (klass (self w)) = "url" →
     s ≠ "" →
     urlparse_query s = Returns query →
     parse_request_decode (StrRequest s) kw w =
     lift (deserialize (request_cls (klass (self w))) query "urlencoded" None
           ≫= alloc) w) ∧
  (∀ (lib : MessageLib) (url : UrlLib) (s1 s2 query : string) (kw : Kwargs)
     (w : World),
     request_format (klass (self w)) = "url" →
     s1 ≠ "" → s2 ≠ "" →
     urlparse_query s1 = Returns query →
     urlparse_query s2 = Returns query →
     parse_request_decode (StrRequest s1) kw w
     = parse_request_decode (StrRequest s2) kw w) ∧
  (∀ (lib : MessageLib) (url : UrlLib) (s query : string) (kw : Kwargs)
     (w : World) (m : Message) (σ : Store),
     request_format (klass (self w)) = "url" →
     s ≠ "" →
     urlparse_query s = Returns query →
     deserialize (request_cls (klass (self w))) query "urlencoded" None (store w)
     = (Returns m, σ) →
     parse_request_decode (StrRequest s) kw w
     = (Returns (length (heap σ)),
        mkWorld (self w) (mkStore (heap σ ++ [m]) (context σ)))) ∧
  (∀ (lib : MessageLib) (authn : ClientAuthn) (url : UrlLib) (s : string)
     (auth : option string) (kw : Kwargs) (w : World) (e : exn),
     request_format (klass (self w)) = "url" →
     s ≠ "" →
     urlparse_query s = Raises e →
     parse_request (StrRequest s) auth kw w
     = (Raises e, mkWorld (self w) (store w))) ∧
  (let r := @parse_request demo_lib demo_authn demo_url
              (StrRequest "https://op.example/authorize?foo=bar&baz=qux")
              None no_kwargs
              (world_of (endpoint_of (with_request_format "url"))) in
   r.1 = Returns 0 ∧
   heap (store r.2) !! 0 =
     Some (mkMessage "Message" {[ "foo" := VStr "bar"; "baz" := VStr "qux" ]})) ∧
  (let r := @parse_request demo_lib demo_authn demo_url
              (StrRequest "http://rp.example:8080/a/b;c?foo=bar&baz=qux#d?e=f")
              None no_kwargs
              (world_of (endpoint_of (with_request_format "url"))) in
   r.1 = Returns 0 ∧
   heap (store r.2) !! 0 =
     Some (mkMessage "Message" {[ "foo" := VStr "bar"; "baz" := VStr "qux" ]})) ∧
  (let r := @parse_request demo_lib demo_authn demo_url
              (StrRequest
                 "https://op.example/authorize?redirect_uri=https%3A%2F%2Frp.example%2Fcb&scope=openid+profile")
              None no_kwargs
              (world_of (endpoint_of (with_request_format "url"))) in
   r.1 = Returns 0 ∧
   heap (store r.2) !! 0 =
     Some (mkMessage "Message"
             {[ "redirect_uri" := VStr "https://rp.example/cb";
                "scope" := VStr "openid profile" ]})) ∧
  @parse_request demo_lib demo_authn demo_url
    (StrRequest "https://[op.example/authorize?foo=bar&baz=qux")
    None no_kwargs (world_of (endpoint_of (with_request_format "url")))
  = (Raises (Exn ValueError "Invalid IPv6 URL"),
     world_of (endpoint_of (with_request_format "url"))).
Proof.
  split; [|split; [|split; [|split; [|split; [|split; [|split]]]]]].
  - intros lib url s query kw w. apply parse_request_decode_url.
  - intros lib url s1 s2 query kw w Hformat Hs1 Hs2 Hq1 Hq2.
    rewrite (parse_request_decode_url s1 query kw w Hformat Hs1 Hq1).
    rewrite (parse_request_decode_url s2 query kw w Hformat Hs2 Hq2).
    reflexivity.
  - intros lib url s query kw w m σ Hformat Hs Hquery Hdecoder.
    rewrite (parse_request_decode_url s query kw w Hformat Hs Hquery).
    rewrite lift_run. unfold mbind, Ext_bind. rewrite Hdecoder. reflexivity.
  - intros lib authn url s auth kw w e Hformat Hs Hquery.
    unfold parse_request. apply bind_raises.
    rewrite (parse_request_decode_string s kw w Hs), Hformat. simpl.
    unfold mbind, Ext_bind, lift, pure_outcome. rewrite Hquery. reflexivity.
  - split; vm_compute; reflexivity.
  - split; vm_compute; reflexivity.
  - split; vm_compute; reflexivity.
  - vm_compute. reflexivity.
Qed.

(** C8 at the URL of the example, with a fragment added: the decoder is
    handed [foo=bar&baz=qux]. *)
Lemma parse_request_url_decodes_query_witness :
  @parse_request_decode demo_lib demo_url
    (StrRequest "https://op.example/authorize?foo=bar&baz=qux#state") no_kwargs
    (world_of (endpoint_of (with_request_format "url")))
  = lift (demo_deserialize "Message" "foo=bar&baz=qux" "urlencoded" None ≫= alloc)
      (world_of (endpoint_of (with_request_format "url"))).
Proof.
  destruct parse_request_url_decodes_query as (Hdecode & _).
  apply (Hdecode demo_lib demo_url
           "https://op.example/authorize?foo=bar&baz=qux#state"
           "foo=bar&baz=qux" no_kwargs
           (world_of (endpoint_of (with_request_format "url")))).
  - reflexivity.
  - discriminate.
  - vm_compute. reflexivity.
Defined.

(** C1 on the code. With one post-parse hook that returns a request of
    its own, the chain run on the decoded request (reference 0) ends with
    the hook's request (reference 1), and [parse_request] still returns
    reference 0, the request as it was decoded. *)
Theorem parse_request_drops_chain_value :
  let raw := DictRequest {[ "foo" := VStr "bar" ]} in
  let w := world_of replacing_endpoint in
  let r := @parse_request demo_lib demo_authn demo_url raw None no_kwargs w in
  let chain := do_post_parse_request 0 (VStr "") no_kwargs
                 (@parse_request_decode demo_lib demo_url raw no_kwargs w).2 in
  chain.1 = Returns 1 ∧
  heap (store chain.2) !! 1 =
    Some (mkMessage "Message" {[ "replaced" := VStr "yes" ]}) ∧
  r.1 = Returns 0 ∧
  heap (store r.2) !! 0 = Some (mkMessage "Message" {[ "foo" := VStr "bar" ]}) ∧
  heap (store r.2) !! 1 =
    Some (mkMessage "Message" {[ "replaced" := VStr "yes" ]}).
Proof. repeat split; vm_compute; reflexivity. Qed.

(** ** The pipeline on the examples of the test suite *)

(** [test_do_response] of the discovery endpoint: the body is the JSON of
    the response arguments, under [Content-type: application/json]. *)
Example do_response_discovery :
  (@do_response demo_lib
     (Some {[ "subject" := VStr "acct:foo@example.com" ]}) None no_kwargs
     (world_of demo_endpoint)).1
  = Returns
      (DictResponse
         (demo_to_json (mkMessage "Message"
                          {[ "subject" := VStr "acct:foo@example.com" ]}))
         ([("Content-type", "application/json")] ++ OAUTH2_NOCACHE_HEADERS)).
Proof. vm_compute. reflexivity. Qed.

(** An empty request is an empty instance of the request class, and a
    bearer credential that names its client fills in [client_id]. *)
Example parse_request_bearer :
  let r := @parse_request demo_lib demo_authn demo_url (DictRequest ∅)
             (Some "Bearer token:client_1") no_kwargs (world_of demo_endpoint) in
  r.1 = Returns 0 ∧
  heap (store r.2) !! 0 =
    Some (mkMessage "Message" {[ "client_id" := VStr "client_1" ]}) ∧
  events (context (store r.2)) = Some [("Protocol request", DictRequest ∅)].
Proof. repeat split; vm_compute; reflexivity. Qed.

(** A redirect with the parameters in the query, and in the fragment. *)
Example do_response_redirect :
  (@do_response demo_lib (Some {[ "code" := VStr "abc" ]}) None
     (mkKwargs None (Some false) (Some "https://rp.example/cb") ∅)
     (world_of (endpoint_of (with_response_placement "url")))).1
  = Returns (DictResponse "https://rp.example/cb?code=abc" OAUTH2_NOCACHE_HEADERS) ∧
  (@do_response demo_lib (Some {[ "code" := VStr "abc" ]}) None
     (mkKwargs None (Some true) (Some "https://rp.example/cb") ∅)
     (world_of (endpoint_of (with_response_placement "url")))).1
  = Returns (DictResponse "https://rp.example/cb#code=abc" OAUTH2_NOCACHE_HEADERS).
Proof. split; vm_compute; reflexivity. Qed.

(** * Further properties of the pipeline *)

(** ** The header utility, continued *)

Lemma filter_other_headers_idemp (H : list header) :
  filter (λ h : header, h.1 ≠ "Content-type")
         (filter (λ h : header, h.1 ≠ "Content-type") H)
  = filter (λ h : header, h.1 ≠ "Content-type") H.
Proof.
  induction H as [|h H IH]; [reflexivity|].
  rewrite filter_cons. destruct (decide (h.1 ≠ "Content-type")) as [Hne|Heq].
  - rewrite filter_cons_True by exact Hne. rewrite IH. reflexivity.
  - exact IH.
Qed.

Lemma filter_other_headers_all (H : list header) :
  Forall (λ h : header, h.1 ≠ "Content-type") H →
  filter (λ h : header, h.1 ≠ "Content-type") H = H.
Proof.
  induction 1 as [|h H Hh _ IH]; [reflexivity|].
  rewrite filter_cons_True by exact Hh. rewrite IH. reflexivity.
Qed.

Lemma filter_other_headers_pair (C : string) :
  filter (λ h : header, h.1 ≠ "Content-type") [("Content-type", C)] = [].
Proof.
  rewrite filter_cons_False; [reflexivity|].
  simpl. intros Hne. apply Hne. reflexivity.
Qed.

Lemma set_content_type_keeps_other_headers_aux (H : list header) (C : string) :
  filter (λ h : header, h.1 ≠ "Content-type") (set_content_type H C)
  = filter (λ h : header, h.1 ≠ "Content-type") H.
Proof.
  destruct (decide (("Content-type", C) ∈ H)) as [Hin|Hnin].
  - rewrite set_content_type_present by exact Hin. reflexivity.
  - rewrite set_content_type_absent by exact Hnin.
    rewrite filter_app, filter_other_headers_idemp, filter_other_headers_pair.
    apply app_nil_r.
Qed.

(** X1. [set_content_type] leaves every header that is not named
    [Content-type] in place and in order: removing the [Content-type]
    entries from its result and from its argument gives the same list, and
    the result is at most one entry longer than the argument. *)
Theorem set_content_type_keeps_other_headers (H : list header) (C : string) :
  filter (λ h : header, h.1 ≠ "Content-type") (set_content_type H C)
  = filter (λ h : header, h.1 ≠ "Content-type") H ∧
  (length (set_content_type H C) ≤ S (length H))%nat.
Proof.
  split; [apply set_content_type_keeps_other_headers_aux|].
  destruct (decide (("Content-type", C) ∈ H)) as [Hin|Hnin].
  - rewrite set_content_type_present by exact Hin. lia.
  - rewrite set_content_type_absent by exact Hnin.
    rewrite length_app. simpl.
    pose proof (length_filter (λ h : header, h.1 ≠ "Content-type") H). lia.
Qed.

(** X2. On a list without an entry named exactly [Content-type], the
    result is the list with the new pair appended at the end; a header whose
    name is spelled differently, such as [content-type], is kept. *)
Theorem set_content_type_appends (H : list header) (C : string) :
  Forall (λ h : header, h.1 ≠ "Content-type") H →
  set_content_type H C = H ++ [("Content-type", C)].
Proof.
  intros Hnone.
  assert (Hnin : ("Content-type", C) ∉ H).
  { intros Hin. rewrite Forall_forall in Hnone.
    apply (Hnone _ Hin). reflexivity. }
  rewrite set_content_type_absent by exact Hnin.
  rewrite filter_other_headers_all by exact Hnone. reflexivity.
Qed.

Lemma set_content_type_appends_witness :
  set_content_type [("content-type", "text/html"); ("Accept", "*/*")]
                   "application/json"
  = [("content-type", "text/html"); ("Accept", "*/*");
     ("Content-type", "application/json")].
Proof.
  apply (set_content_type_appends
           [("content-type", "text/html"); ("Accept", "*/*")]
           "application/json").
  repeat constructor; simpl; discriminate.
Defined.

(** X3. Setting one content type and then another gives what setting the
    second alone gives, provided the list did not already hold the second
    pair. *)
Theorem set_content_type_last_wins (H : list header) (C1 C2 : string) :
  ("Content-type", C2) ∉ H →
  set_content_type (set_content_type H C1) C2 = set_content_type H C2.
Proof.
  intros Hnin2.
  destruct (decide (("Content-type", C1) ∈ H)) as [Hin1|Hnin1].
  { rewrite (set_content_type_present H C1) by exact Hin1. reflexivity. }
  rewrite (set_content_type_absent H C1) by exact Hnin1.
  rewrite (set_content_type_absent H C2) by exact Hnin2.
  destruct (decide (C1 = C2)) as [->|Hne].
  { apply set_content_type_present. set_solver. }
  rewrite set_content_type_absent.
  - rewrite filter_app, filter_other_headers_idemp, filter_other_headers_pair.
    rewrite app_nil_r. reflexivity.
  - intros Hin. apply elem_of_app in Hin as [Hin|Hin].
    + apply list_elem_of_filter in Hin as [_ Hin]. exact (Hnin2 Hin).
    + apply list_elem_of_singleton in Hin. congruence.
Qed.

Lemma set_content_type_last_wins_witness :
  set_content_type
    (set_content_type [("Accept", "*/*"); ("Content-type", "text/html")]
                      "application/json")
    "application/x-www-form-urlencoded"
  = [("Accept", "*/*"); ("Content-type", "application/x-www-form-urlencoded")].
Proof.
  rewrite (set_content_type_last_wins
             [("Accept", "*/*"); ("Content-type", "text/html")]
             "application/json" "application/x-www-form-urlencoded").
  - reflexivity.
  - intros Hin. repeat (apply elem_of_cons in Hin as [Hin|Hin]; [discriminate|]).
    by apply elem_of_nil in Hin.
Defined.

(** ** Hook chains *)

Lemma for_in_aborts {A B} (l1 l2 : list B) (b : B) (body : B → A → M A)
    (x x1 : A) (w w1 w2 : World) (e : exn) :
  for_in l1 body x w = (Returns x1, w1) →
  body b x1 w1 = (Raises e, w2) →
  for_in (l1 ++ b :: l2) body x w = (Raises e, w2).
Proof.
  intros Hl1 Hb. rewrite for_in_app, (bind_returns _ _ _ _ _ Hl1). simpl.
  apply (bind_raises _ _ _ _ _ Hb).
Qed.

Lemma for_in_self {A B} (l : list B) (body : B → A → M A) (x x1 : A)
    (w w1 : World) :
  (∀ b x, preserves_self (body b x)) →
  for_in l body x w = (Returns x1, w1) → self w1 = self w.
Proof.
  intros Hbody Hrun. pose proof (preserves_for_in l body Hbody x w) as Hself.
  rewrite Hrun in Hself. exact Hself.
Qed.

(** X4. A post-parse hook that raises ends the chain: the hooks after it
    are not run, the exception comes out of [do_post_parse_request], and
    the store is as the hooks that ran left it. *)
Theorem do_post_parse_request_aborts (ran rest : list parse_hook)
    (meth : parse_hook) (request request1 : loc) (client_id : value)
    (kw : Kwargs) (w w1 : World) (e : exn) (σ : Store) :
  post_parse_request (self w) = ran ++ meth :: rest →
  for_in ran (λ meth request, lift (meth request client_id kw)) request w
    = (Returns request1, w1) →
  meth request1 client_id kw (store w1) = (Raises e, σ) →
  do_post_parse_request request client_id kw w = (Raises e, mkWorld (self w) σ).
Proof.
  intros Hhooks Hran Hmeth. unfold do_post_parse_request.
  rewrite (bind_returns get_self _ w w (self w)) by reflexivity.
  rewrite Hhooks.
  apply (for_in_aborts _ _ _ _ _ _ _ _ _ _ Hran).
  rewrite lift_run, Hmeth. simpl.
  rewrite (for_in_self _ _ _ _ _ _ (λ b x, preserves_lift _) Hran).
  reflexivity.
Qed.

Lemma do_post_parse_request_aborts_witness :
  let e := mkEndpoint Endpoint_class (mkKeyJar []) [] []
             [tagging_hook; raising_hook; replacing_hook] no_kwargs in
  let m := mkMessage "Message" {[ "foo" := VStr "bar" ]} in
  do_post_parse_request 0 (VStr "") no_kwargs
    (mkWorld e (mkStore [m] demo_context))
  = (Raises (Exn (OtherException "ToOld") "Too old"),
     mkWorld e (mkStore [mkMessage "Message"
                           {[ "foo" := VStr "bar"; "seen" := VStr "yes" ]}]
                        demo_context)).
Proof.
  intros e m.
  apply (do_post_parse_request_aborts [tagging_hook] [replacing_hook]
           raising_hook 0 0 (VStr "") no_kwargs
           (mkWorld e (mkStore [m] demo_context))
           (mkWorld e (mkStore [mkMessage "Message"
                                  {[ "foo" := VStr "bar"; "seen" := VStr "yes" ]}]
                               demo_context))).
  - reflexivity.
  - vm_compute. reflexivity.
  - reflexivity.
Defined.

(** X5. An endpoint as [__init__] leaves it has no hooks: each of the
    three chain runners returns the value it was given and changes
    nothing. *)
Theorem new_endpoint_chains_are_identity (cls : EndpointClass)
    (keyjar : KeyJar) (kwargs : Kwargs) (σ : Store) (request : loc)
    (client_id : value) (response_args : gmap string value)
    (parsed : option loc) (kw : Kwargs) :
  do_post_parse_request request client_id kw (mkWorld (init cls keyjar kwargs) σ)
    = (Returns request, mkWorld (init cls keyjar kwargs) σ) ∧
  do_pre_construct response_args parsed kw (mkWorld (init cls keyjar kwargs) σ)
    = (Returns response_args, mkWorld (init cls keyjar kwargs) σ) ∧
  do_post_construct request parsed kw (mkWorld (init cls keyjar kwargs) σ)
    = (Returns request, mkWorld (init cls keyjar kwargs) σ).
Proof. repeat split. Qed.

(** ** Response construction *)

Lemma construct_no_hooks `{!MessageLib} (response_args : gmap string value)
    (request : option loc) (kw : Kwargs) (w : World) :
  pre_construct (self w) = [] →
  post_construct (self w) = [] →
  construct response_args request kw w
  = match new_message (response_cls (klass (self w))) response_args with
    | Returns m =>
        (Returns (length (heap (store w))),
         mkWorld (self w)
           (mkStore (heap (store w) ++ [m]) (context (store w))))
    | Raises e => (Raises e, mkWorld (self w) (store w))
    end.
Proof.
  intros Hpre Hpost. unfold construct, do_pre_construct, do_post_construct.
  rewrite (bind_run (get_self ≫= _)).
  rewrite (bind_returns get_self _ w w (self w)) by reflexivity.
  rewrite Hpre. simpl.
  rewrite (bind_returns get_self _ w w (self w)) by reflexivity.
  rewrite bind_run, lift_new.
  destruct (new_message (response_cls (klass (self w))) response_args)
    as [m|e]; [|reflexivity].
  rewrite bind_run. simpl. rewrite Hpost. reflexivity.
Qed.

(** X6. On an endpoint without construct hooks, [construct] creates one
    instance of the response class, as the constructor of the class builds
    it from the response arguments: the defaults of the class, and over
    them every argument as the class stores it, an argument whose value is
    [''] or [['']] being skipped. It returns the reference to the instance
    and leaves the instances that were there and the context as they were.
    When the constructor raises, [construct] raises the same exception and
    creates nothing. *)
Theorem construct_without_hooks `{!MessageLib}
    (response_args : gmap string value) (request : option loc) (kw : Kwargs)
    (w : World) :
  pre_construct (self w) = [] →
  post_construct (self w) = [] →
  (∀ m, new_message (response_cls (klass (self w))) response_args = Returns m →
     ∃ w',
       construct response_args request kw w
         = (Returns (length (heap (store w))), w') ∧
       heap (store w') !! length (heap (store w)) = Some m ∧
       msg_cls m = response_cls (klass (self w)) ∧
       (∀ key,
          msg_dict m !! key =
          match response_args !! key with
          | Some val =>
              if is_blank val then c_default (response_cls (klass (self w))) !! key
              else match add_value (response_cls (klass (self w))) key val with
                   | Returns (Some stored) => Some stored
                   | _ => c_default (response_cls (klass (self w))) !! key
                   end
          | None => c_default (response_cls (klass (self w))) !! key
          end) ∧
       (∀ l m', heap (store w) !! l = Some m' → heap (store w') !! l = Some m') ∧
       length (heap (store w')) = S (length (heap (store w))) ∧
       context (store w') = context (store w)) ∧
  (∀ e, new_message (response_cls (klass (self w))) response_args = Raises e →
     construct response_args request kw w
     = (Raises e, mkWorld (self w) (store w))).
Proof.
  intros Hpre Hpost. split.
  - intros m Hnew. eexists.
    split; [rewrite construct_no_hooks, Hnew by assumption; reflexivity|].
    simpl. split; [apply list_lookup_middle; reflexivity|].
    destruct (new_message_fields _ _ _ Hnew) as [Hcls Hfields].
    split; [exact Hcls|]. split; [|split; [|split; [|reflexivity]]].
    + intros key. rewrite Hfields. unfold from_dict_entry.
      destruct (response_args !! key) as [val|]; [|reflexivity].
      destruct (is_blank val); reflexivity.
    + intros l m' Hl. apply lookup_app_l_Some. exact Hl.
    + rewrite length_app. simpl. lia.
  - intros e Hnew. rewrite construct_no_hooks, Hnew by assumption. reflexivity.
Qed.

Lemma construct_without_hooks_witness :
  ∃ w',
    @construct demo_lib
      {[ "subject" := VStr "acct:foo@example.com"; "note" := VStr "" ]} None
      no_kwargs (world_of demo_endpoint)
    = (Returns 0, w') ∧
    heap (store w') !! 0
    = Some (mkMessage "Message" {[ "subject" := VStr "acct:foo@example.com" ]}).
Proof.
  destruct (@construct_without_hooks demo_lib
              {[ "subject" := VStr "acct:foo@example.com"; "note" := VStr "" ]}
              None no_kwargs (world_of demo_endpoint) eq_refl eq_refl)
    as [Hreturns _].
  destruct (Hreturns
              (mkMessage "Message" {[ "subject" := VStr "acct:foo@example.com" ]}))
    as (w' & Hret & Hnew & _).
  - vm_compute. reflexivity.
  - exists w'. split; [exact Hret | exact Hnew].
Defined.

(** X7. An exception raised in the pre-construct chain comes out of
    [construct], [response_info] and [do_response] as it was raised; no
    response instance is created, the store is as the chain left it. *)
Theorem pre_construct_exception_propagates `{!MessageLib}
    (response_args : option (gmap string value)) (request : option loc)
    (kw : Kwargs) (w w' : World) (e : exn) :
  do_pre_construct (default ∅ response_args) request kw w = (Raises e, w') →
  construct (default ∅ response_args) request kw w = (Raises e, w') ∧
  response_info (default ∅ response_args) request kw w = (Raises e, w') ∧
  do_response response_args request kw w = (Raises e, w').
Proof.
  intros Hpre.
  assert (Hconstruct :
            construct (default ∅ response_args) request kw w = (Raises e, w'))
    by (unfold construct; apply (bind_raises _ _ _ _ _ Hpre)).
  split; [exact Hconstruct|]. split; [exact Hconstruct|].
  unfold do_response. apply bind_raises. exact Hconstruct.
Qed.

Lemma pre_construct_exception_propagates_witness :
  let e := mkEndpoint Endpoint_class (mkKeyJar []) [raising_pre_construct] []
             [] no_kwargs in
  @do_response demo_lib (Some {[ "sub" := VStr "diana" ]}) None no_kwargs
    (world_of e)
  = (Raises (Exn (OtherException "ServiceError") "Unknown user"), world_of e).
Proof.
  intros e.
  apply (@pre_construct_exception_propagates demo_lib
           (Some {[ "sub" := VStr "diana" ]}) None no_kwargs
           (world_of e) (world_of e)).
  reflexivity.
Defined.

(** X8. An exception raised in the post-construct chain comes out of
    [do_response] as it was raised, after the response instance was
    created: nothing is formatted and no dict is returned. *)
Theorem post_construct_exception_propagates `{!MessageLib}
    (response_args : option (gmap string value)) (request : option loc)
    (kw : Kwargs) (w w1 w2 : World) (args : gmap string value) (m : Message)
    (e : exn) :
  do_pre_construct (default ∅ response_args) request kw w = (Returns args, w1) →
  new_message (response_cls (klass (self w1))) args = Returns m →
  do_post_construct (length (heap (store w1))) request kw
    (mkWorld (self w1)
       (mkStore (heap (store w1) ++ [m]) (context (store w1))))
    = (Raises e, w2) →
  do_response response_args request kw w = (Raises e, w2).
Proof.
  intros Hpre Hnew Hpost. unfold do_response. apply bind_raises.
  unfold response_info, construct.
  rewrite (bind_returns _ _ _ _ _ Hpre).
  rewrite (bind_returns get_self _ w1 w1 (self w1)) by reflexivity.
  rewrite bind_run, lift_new, Hnew. exact Hpost.
Qed.

Lemma post_construct_exception_propagates_witness :
  let e := mkEndpoint Endpoint_class (mkKeyJar []) [] [raising_post_construct]
             [] no_kwargs in
  let m := mkMessage "Message" {[ "sub" := VStr "diana" ]} in
  @do_response demo_lib (Some {[ "sub" := VStr "diana" ]}) None no_kwargs
    (world_of e)
  = (Raises (Exn (OtherException "ServiceError") "Could not sign"),
     mkWorld e (mkStore [m] demo_context)).
Proof.
  intros e m.
  apply (@post_construct_exception_propagates demo_lib
           (Some {[ "sub" := VStr "diana" ]}) None no_kwargs
           (world_of e) (world_of e) (mkWorld e (mkStore [m] demo_context))
           {[ "sub" := VStr "diana" ]} m).
  - reflexivity.
  - vm_compute. reflexivity.
  - reflexivity.
Defined.

(** ** Response emission, continued *)

(** X9. With placement [body], every response format other than [json]
    gives the form-urlencoded serialization under the content type
    [application/x-www-form-urlencoded]. *)
Theorem do_response_body_urlencoded `{!MessageLib}
    (response_args : option (gmap string value)) (request : option loc)
    (kw : Kwargs) (w w' : World) (_response : loc) (m : Message) :
  response_info (default ∅ response_args) request kw w = (Returns _response, w') →
  heap (store w') !! _response = Some m →
  msg_dict m !! "error" = None →
  response_placement (klass (self w)) = "body" →
  response_format (klass (self w)) ≠ "json" →
  do_response response_args request kw w
  = (Returns
       (DictResponse (to_urlencoded m)
          (match kw_http_headers kw with
           | Some caller =>
               set_content_type caller "application/x-www-form-urlencoded"
           | None => [("Content-type", "application/x-www-form-urlencoded")]
           end ++ OAUTH2_NOCACHE_HEADERS)), w').
Proof.
  intros Hinfo Hload Herr Hbody Hformat.
  rewrite (do_response_after_info _ _ _ _ _ _ _ Hinfo Hload).
  rewrite bool_decide_eq_false_2 by (rewrite Herr; apply is_Some_None).
  rewrite bind_run.
  rewrite (bool_decide_eq_true_2 _ Hbody), (bool_decide_eq_false_2 _ Hformat).
  reflexivity.
Qed.

Lemma do_response_body_urlencoded_witness :
  ∃ w',
    @do_response demo_lib
      (Some {[ "access_token" := VStr "abc" ]}) None no_kwargs
      (world_of (endpoint_of (with_response_format "JSON")))
    = (Returns
         (DictResponse "access_token=abc"
            ([("Content-type", "application/x-www-form-urlencoded")]
             ++ OAUTH2_NOCACHE_HEADERS)), w').
Proof.
  set (m := mkMessage "Message" {[ "access_token" := VStr "abc" ]}).
  set (e := endpoint_of (with_response_format "JSON")).
  exists (mkWorld e (mkStore [m] demo_context)).
  apply (@do_response_body_urlencoded demo_lib
           (Some {[ "access_token" := VStr "abc" ]}) None no_kwargs
           (world_of e) (mkWorld e (mkStore [m] demo_context)) 0 m).
  - vm_compute. reflexivity.
  - reflexivity.
  - vm_compute. reflexivity.
  - reflexivity.
  - vm_compute. discriminate.
Defined.

(** X10. With placement [url] and no [return_uri] among the keyword
    arguments, [do_response] on a response without an [error] field raises
    [KeyError] for [return_uri]; it returns no dict. *)
Theorem do_response_url_without_return_uri `{!MessageLib}
    (response_args : option (gmap string value)) (request : option loc)
    (kw : Kwargs) (w w' : World) (_response : loc) (m : Message) :
  response_info (default ∅ response_args) request kw w = (Returns _response, w') →
  heap (store w') !! _response = Some m →
  msg_dict m !! "error" = None →
  response_placement (klass (self w)) = "url" →
  kw_return_uri kw = None →
  do_response response_args request kw w
  = (Raises (Exn KeyError "'return_uri'"), w').
Proof.
  intros Hinfo Hload Herr Hurl Hnone.
  assert (Hnot_body : response_placement (klass (self w)) ≠ "body")
    by (rewrite Hurl; discriminate).
  rewrite (do_response_after_info _ _ _ _ _ _ _ Hinfo Hload).
  rewrite bool_decide_eq_false_2 by (rewrite Herr; apply is_Some_None).
  rewrite bind_run.
  rewrite (bool_decide_eq_false_2 _ Hnot_body), (bool_decide_eq_true_2 _ Hurl).
  rewrite Hnone. reflexivity.
Qed.

Lemma do_response_url_without_return_uri_witness :
  ∃ w',
    @do_response demo_lib (Some {[ "code" := VStr "abc" ]}) None
      (mkKwargs None (Some true) None ∅)
      (world_of (endpoint_of (with_response_placement "url")))
    = (Raises (Exn KeyError "'return_uri'"), w').
Proof.
  set (m := mkMessage "Message" {[ "code" := VStr "abc" ]}).
  set (e := endpoint_of (with_response_placement "url")).
  exists (mkWorld e (mkStore [m] demo_context)).
  apply (@do_response_url_without_return_uri demo_lib
           (Some {[ "code" := VStr "abc" ]}) None
           (mkKwargs None (Some true) None ∅)
           (world_of e) (mkWorld e (mkStore [m] demo_context)) 0 m).
  - vm_compute. reflexivity.
  - reflexivity.
  - vm_compute. reflexivity.
  - reflexivity.
  - reflexivity.
Defined.

(** X11. With placement [body], the headers the caller passed that are not
    named [Content-type] are all in the returned list, in their order,
    before the no-cache headers; only the content type is set. *)
Theorem do_response_keeps_caller_headers `{!MessageLib}
    (response_args : option (gmap string value)) (request : option loc)
    (kw : Kwargs) (w w' : World) (_response : loc) (m : Message)
    (caller : list header) :
  response_info (default ∅ response_args) request kw w = (Returns _response, w') →
  heap (store w') !! _response = Some m →
  msg_dict m !! "error" = None →
  response_placement (klass (self w)) = "body" →
  kw_http_headers kw = Some caller →
  ∃ resp headers content_type,
    do_response response_args request kw w
      = (Returns (DictResponse resp (headers ++ OAUTH2_NOCACHE_HEADERS)), w') ∧
    filter (λ h : header, h.1 ≠ "Content-type") headers
      = filter (λ h : header, h.1 ≠ "Content-type") caller ∧
    ("Content-type", content_type) ∈ headers.
Proof.
  intros Hinfo Hload Herr Hbody Hcaller.
  rewrite (do_response_after_info _ _ _ _ _ _ _ Hinfo Hload).
  rewrite bool_decide_eq_false_2 by (rewrite Herr; apply is_Some_None).
  rewrite bind_run, (bool_decide_eq_true_2 _ Hbody), Hcaller.
  destruct (bool_decide (response_format (klass (self w)) = "json")).
  - exists (to_json m), (set_content_type caller "application/json"),
      "application/json".
    split; [reflexivity|].
    split; [apply set_content_type_keeps_other_headers_aux
           | apply set_content_type_elem].
  - exists (to_urlencoded m),
      (set_content_type caller "application/x-www-form-urlencoded"),
      "application/x-www-form-urlencoded".
    split; [reflexivity|].
    split; [apply set_content_type_keeps_other_headers_aux
           | apply set_content_type_elem].
Qed.

Lemma do_response_keeps_caller_headers_witness :
  ∃ resp headers content_type w',
    @do_response demo_lib (Some {[ "sub" := VStr "diana" ]}) None
      (mkKwargs (Some [("X-Frame-Options", "DENY"); ("Content-type", "text/html");
                       ("Vary", "Origin")]) None None ∅)
      (world_of demo_endpoint)
    = (Returns (DictResponse resp (headers ++ OAUTH2_NOCACHE_HEADERS)), w') ∧
    filter (λ h : header, h.1 ≠ "Content-type") headers
    = [("X-Frame-Options", "DENY"); ("Vary", "Origin")] ∧
    ("Content-type", content_type) ∈ headers.
Proof.
  set (m := mkMessage "Message" {[ "sub" := VStr "diana" ]}).
  set (caller := [("X-Frame-Options", "DENY"); ("Content-type", "text/html");
                  ("Vary", "Origin")]).
  destruct (@do_response_keeps_caller_headers demo_lib
              (Some {[ "sub" := VStr "diana" ]}) None
              (mkKwargs (Some caller) None None ∅)
              (world_of demo_endpoint)
              (mkWorld demo_endpoint (mkStore [m] demo_context)) 0 m caller)
    as (resp & headers & content_type & Hret & Hkept & Hct).
  - vm_compute. reflexivity.
  - reflexivity.
  - vm_compute. reflexivity.
  - reflexivity.
  - reflexivity.
  - exists resp, headers, content_type, (mkWorld demo_endpoint (mkStore [m] demo_context)).
    split; [exact Hret|]. split; [|exact Hct].
    rewrite Hkept. reflexivity.
Defined.

(** X12. On an endpoint without construct hooks, what [do_response]
    answers for response arguments without an [error] entry, the response
    class having no [error] among its defaults, depends on the endpoint,
    the arguments and the keyword arguments only: not on the parsed
    request, and not on what the store holds from earlier calls. *)
Theorem do_response_depends_on_arguments_only `{!MessageLib}
    (e : Endpoint) (response_args : option (gmap string value))
    (request1 request2 : option loc) (kw : Kwargs) (σ1 σ2 : Store) :
  pre_construct e = [] →
  post_construct e = [] →
  default ∅ response_args !! "error" = None →
  c_default (response_cls (klass e)) !! "error" = None →
  (do_response response_args request1 kw (mkWorld e σ1)).1
  = (do_response response_args request2 kw (mkWorld e σ2)).1.
Proof.
  intros Hpre Hpost Herr Hdefault.
  destruct (new_message (response_cls (klass e)) (default ∅ response_args))
    as [m|exc] eqn:Hnew.
  2: { assert (Hraises : ∀ request σ,
                 (do_response response_args request kw (mkWorld e σ)).1
                 = Raises exc).
       { intros request σ. unfold do_response. rewrite bind_run.
         unfold response_info.
         rewrite (construct_no_hooks _ request kw (mkWorld e σ) Hpre Hpost).
         simpl. rewrite Hnew. reflexivity. }
       rewrite !Hraises. reflexivity. }
  assert (Hno_error : msg_dict m !! "error" = None).
  { destruct (new_message_fields _ _ _ Hnew) as [_ Hfields].
    rewrite Hfields, Herr. exact Hdefault. }
  assert (Hrun : ∀ request σ,
            ∃ w', do_response response_args request kw (mkWorld e σ)
                  = ((if bool_decide (response_placement (klass e) = "body") then
                        Returns
                          (if bool_decide (response_format (klass e) = "json")
                           then DictResponse (to_json m)
                                  (match kw_http_headers kw with
                                   | Some caller =>
                                       set_content_type caller "application/json"
                                   | None => [("Content-type", "application/json")]
                                   end ++ OAUTH2_NOCACHE_HEADERS)
                           else DictResponse (to_urlencoded m)
                                  (match kw_http_headers kw with
                                   | Some caller =>
                                       set_content_type caller
                                         "application/x-www-form-urlencoded"
                                   | None =>
                                       [("Content-type",
                                         "application/x-www-form-urlencoded")]
                                   end ++ OAUTH2_NOCACHE_HEADERS))
                      else if bool_decide (response_placement (klass e) = "url") then
                        match kw_return_uri kw with
                        | Some return_uri =>
                            Returns
                              (DictResponse
                                 (msg_request m return_uri
                                    (default false (kw_fragment_enc kw)))
                                 OAUTH2_NOCACHE_HEADERS)
                        | None => Raises (Exn KeyError "'return_uri'")
                        end
                      else
                        Raises (Exn ValueError
                                  ("Don't know where that is: '" +:+
                                   response_placement (klass e)))), w')).
  { intros request σ.
    exists (mkWorld e (mkStore (heap σ ++ [m]) (context σ))).
    rewrite (do_response_after_info response_args request kw (mkWorld e σ)
               (mkWorld e (mkStore (heap σ ++ [m]) (context σ)))
               (length (heap σ)) m).
    - rewrite bool_decide_eq_false_2 by (rewrite Hno_error; apply is_Some_None).
      rewrite bind_run. simpl.
      destruct (bool_decide (response_placement (klass e) = "body")).
      + destruct (bool_decide (response_format (klass e) = "json")); reflexivity.
      + destruct (bool_decide (response_placement (klass e) = "url")); [|reflexivity].
        destruct (kw_return_uri kw); reflexivity.
    - unfold response_info.
      rewrite (construct_no_hooks _ request kw (mkWorld e σ) Hpre Hpost).
      simpl. rewrite Hnew. reflexivity.
    - simpl. apply list_lookup_middle. reflexivity. }
  destruct (Hrun request1 σ1) as [w1 ->], (Hrun request2 σ2) as [w2 ->].
  reflexivity.
Qed.

Lemma do_response_depends_on_arguments_only_witness :
  (@do_response demo_lib (Some {[ "sub" := VStr "diana" ]}) None no_kwargs
     (world_of demo_endpoint)).1
  = (@do_response demo_lib (Some {[ "sub" := VStr "diana" ]}) (Some 0) no_kwargs
       (mkWorld demo_endpoint
          (mkStore [mkMessage "Message" {[ "client_id" := VStr "client_1" ]};
                    mkMessage "Message" {[ "sub" := VStr "bob" ]}]
                   (mkContext (mkKeyJar []) true None (λ _, true))))).1.
Proof.
  apply (@do_response_depends_on_arguments_only demo_lib demo_endpoint
           (Some {[ "sub" := VStr "diana" ]}) None (Some 0) no_kwargs).
  - reflexivity.
  - reflexivity.
  - vm_compute. reflexivity.
  - vm_compute. reflexivity.
Defined.

(** ** Request decoding *)

(** X13. Without a raw request, that is for [None], an empty dict or an
    empty string, the decoded request is a new instance of the request
    class that holds the defaults of the class and nothing else, whatever
    the request format; nothing is deserialized and the rest of the store
    stays as it was. *)
Theorem parse_request_decode_nothing `{!MessageLib, !UrlLib} (kw : Kwargs)
    (w : World) :
  let fresh := mkMessage (request_cls (klass (self w)))
                 (c_default (request_cls (klass (self w)))) in
  let w' := mkWorld (self w)
              (mkStore (heap (store w) ++ [fresh]) (context (store w))) in
  parse_request_decode NoRequest kw w = (Returns (length (heap (store w))), w') ∧
  parse_request_decode (DictRequest ∅) kw w
    = (Returns (length (heap (store w))), w') ∧
  parse_request_decode (StrRequest "") kw w
    = (Returns (length (heap (store w))), w').
Proof.
  assert (Hfalsy : ∀ request, truthy request = false →
            parse_request_decode request kw w
            = (Returns (length (heap (store w))),
               mkWorld (self w)
                 (mkStore (heap (store w) ++
                             [mkMessage (request_cls (klass (self w)))
                                (c_default (request_cls (klass (self w))))])
                          (context (store w))))).
  { intros request Hfalsy. unfold parse_request_decode.
    rewrite (bind_returns get_self _ w w (self w)) by reflexivity.
    rewrite (bind_returns get_context _ w w (context (store w))) by reflexivity.
    simpl. rewrite Hfalsy, lift_new, new_message_empty. reflexivity. }
  repeat split; apply Hfalsy; reflexivity.
Qed.

(** X14. A raw request that is a non-empty dict is handed to the
    constructor of the request class, whatever the request format is, and
    nothing is deserialized: the decoded request starts from the defaults
    of the class and holds every entry of the dict as the class stores it,
    an entry whose value is [''] or [['']] being skipped. When the
    constructor raises, [parse_request] raises the same exception. *)
Theorem parse_request_decode_dict `{!MessageLib, !ClientAuthn, !UrlLib}
    (d : gmap string value) (auth : option string) (kw : Kwargs) (w : World) :
  d ≠ ∅ →
  (∀ m, new_message (request_cls (klass (self w))) d = Returns m →
     parse_request_decode (DictRequest d) kw w
     = (Returns (length (heap (store w))),
        mkWorld (self w) (mkStore (heap (store w) ++ [m]) (context (store w)))) ∧
     msg_cls m = request_cls (klass (self w)) ∧
     ∀ key,
       msg_dict m !! key =
       match d !! key with
       | Some val =>
           if is_blank val then c_default (request_cls (klass (self w))) !! key
           else match add_value (request_cls (klass (self w))) key val with
                | Returns (Some stored) => Some stored
                | _ => c_default (request_cls (klass (self w))) !! key
                end
       | None => c_default (request_cls (klass (self w))) !! key
       end) ∧
  (∀ e, new_message (request_cls (klass (self w))) d = Raises e →
     parse_request (DictRequest d) auth kw w
     = (Raises e, mkWorld (self w) (store w))).
Proof.
  intros Hd.
  assert (Hdecode : parse_request_decode (DictRequest d) kw w
                    = lift (pure_outcome
                              (new_message (request_cls (klass (self w))) d)
                            ≫= alloc) w).
  { unfold parse_request_decode.
    rewrite (bind_returns get_self _ w w (self w)) by reflexivity.
    rewrite (bind_returns get_context _ w w (context (store w))) by reflexivity.
    simpl. rewrite (bool_decide_eq_false_2 _ Hd). reflexivity. }
  split.
  - intros m Hnew. rewrite Hdecode, lift_new, Hnew.
    split; [reflexivity|].
    destruct (new_message_fields _ _ _ Hnew) as [Hcls Hfields].
    split; [exact Hcls|]. intros key. rewrite Hfields. unfold from_dict_entry.
    destruct (d !! key) as [val|]; [|reflexivity].
    destruct (is_blank val); reflexivity.
  - intros e Hnew. unfold parse_request. apply bind_raises.
    rewrite Hdecode, lift_new, Hnew. reflexivity.
Qed.

Lemma parse_request_decode_dict_witness :
  @parse_request_decode demo_lib demo_url
    (DictRequest {[ "code" := VStr "abc"; "state" := VStr "" ]})
    no_kwargs (world_of (endpoint_of (with_request_cls "AccessTokenRequest")))
  = (Returns 0,
     mkWorld (endpoint_of (with_request_cls "AccessTokenRequest"))
       (mkStore [mkMessage "AccessTokenRequest"
                   {[ "code" := VStr "abc";
                      "grant_type" := VStr "authorization_code" ]}]
                demo_context)).
Proof.
  destruct (@parse_request_decode_dict demo_lib demo_authn demo_url
              {[ "code" := VStr "abc"; "state" := VStr "" ]} None no_kwargs
              (world_of (endpoint_of (with_request_cls "AccessTokenRequest"))))
    as [Hreturns _].
  - intros Hempty.
    assert (Hcode : ({[ "code" := VStr "abc"; "state" := VStr "" ]}
                     : gmap string value) !! "code" = Some (VStr "abc"))
      by apply lookup_insert_eq.
    rewrite Hempty in Hcode. discriminate Hcode.
  - destruct (Hreturns
                (mkMessage "AccessTokenRequest"
                   {[ "code" := VStr "abc";
                      "grant_type" := VStr "authorization_code" ]}))
      as [Hret _].
    + vm_compute. reflexivity.
    + exact Hret.
Defined.

(** X15. For a non-empty string, the decoder is called as the request
    format says: [jwt] with the key jar and the SSL flag of the context,
    [url] on the query component [urlparse] finds, any other format on the
    string itself. When the call returns a message, that message is the
    decoded request, placed in the store; when [urlparse] or the decoder
    raises, whatever the class of the exception, [ValueError] included,
    [parse_request] raises the same exception and creates nothing. The
    keyword arguments hold no [keyjar] and no [verify], which the [jwt]
    call passes itself. *)
Theorem parse_request_decode_string_outcome `{!MessageLib, !ClientAuthn, !UrlLib}
    (s : string) (auth : option string) (kw : Kwargs) (w : World) :
  s ≠ "" →
  kw_other kw !! "keyjar" = None →
  kw_other kw !! "verify" = None →
  let call :=
    if bool_decide (request_format (klass (self w)) = "jwt") then
      deserialize (request_cls (klass (self w))) s "jwt"
        (Some (ctx_keyjar (context (store w)),
               verify_ssl (context (store w)), kw))
    else if bool_decide (request_format (klass (self w)) = "url") then
      pure_outcome (urlparse_query s) ≫= λ query,
        deserialize (request_cls (klass (self w))) query "urlencoded" None
    else
      deserialize (request_cls (klass (self w))) s
        (request_format (klass (self w))) None in
  (∀ m σ, call (store w) = (Returns m, σ) →
     parse_request_decode (StrRequest s) kw w
     = (Returns (length (heap σ)),
        mkWorld (self w) (mkStore (heap σ ++ [m]) (context σ)))) ∧
  (∀ e σ, call (store w) = (Raises e, σ) →
     parse_request (StrRequest s) auth kw w = (Raises e, mkWorld (self w) σ)).
Proof.
  intros Hs _ _ call. split.
  - intros m σ Hcall. rewrite (parse_request_decode_string s kw w Hs).
    fold call. rewrite lift_alloc, Hcall. reflexivity.
  - intros e σ Hcall. unfold parse_request. apply bind_raises.
    rewrite (parse_request_decode_string s kw w Hs).
    fold call. rewrite lift_alloc, Hcall. reflexivity.
Qed.

Lemma parse_request_decode_string_outcome_witness :
  @parse_request json_lib demo_authn demo_url (StrRequest "{not json") None
    no_kwargs (world_of (endpoint_of (with_request_format "json")))
  = (Raises (Exn ValueError "No JSON object could be decoded"),
     world_of (endpoint_of (with_request_format "json"))) ∧
  @parse_request demo_lib demo_authn demo_url (StrRequest "http://[x/?a=b") None
    no_kwargs (world_of (endpoint_of (with_request_format "url")))
  = (Raises (Exn ValueError "Invalid IPv6 URL"),
     world_of (endpoint_of (with_request_format "url"))).
Proof.
  split.
  - destruct (@parse_request_decode_string_outcome json_lib demo_authn demo_url
                "{not json" None no_kwargs
                (world_of (endpoint_of (with_request_format "json"))))
      as [_ Hraises].
    + discriminate.
    + reflexivity.
    + reflexivity.
    + apply Hraises. reflexivity.
  - destruct (@parse_request_decode_string_outcome demo_lib demo_authn demo_url
                "http://[x/?a=b" None no_kwargs
                (world_of (endpoint_of (with_request_format "url"))))
      as [_ Hraises].
    + discriminate.
    + reflexivity.
    + reflexivity.
    + apply Hraises. vm_compute. reflexivity.
Defined.

(** ** Client authentication *)

Lemma parse_request_authn_run `{!ClientAuthn} (req : loc)
    (auth : option string) (kw : Kwargs) (w : World) :
  parse_request_authn req auth kw w =
  match verify_client req auth (store w) with
  | (Raises e, σ) =>
      if bool_decide (exn_cls e = UnknownOrNoAuthnMethod) then
        if bool_decide (client_auth_method (klass (self w)) = "") then
          (Returns (VStr ""), mkWorld (self w) σ)
        else (Raises (Exn UnAuthorizedClient ""), mkWorld (self w) σ)
      else (Raises e, mkWorld (self w) σ)
  | (Returns auth_info, σ) =>
      match auth_info !! "client_id" with
      | Some client_id =>
          (lift (setitem req "client_id" client_id);; mret client_id)
            (mkWorld (self w) σ)
      | None =>
          (m ← lift (load req);
           match msg_dict m !! "client_id" with
           | Some client_id => mret client_id
           | None => mret (VStr "")
           end) (mkWorld (self w) σ)
      end
  end.
Proof.
  unfold parse_request_authn.
  rewrite (bind_returns get_self _ w w (self w)) by reflexivity.
  rewrite bind_run, attempt_run. unfold client_authentication.
  rewrite lift_run.
  destruct (verify_client req auth (store w)) as [[auth_info|e] σ]; simpl.
  - destruct (auth_info !! "client_id"); reflexivity.
  - destruct (bool_decide (exn_cls e = UnknownOrNoAuthnMethod)); [|reflexivity].
    destruct (bool_decide (client_auth_method (klass (self w)) = ""));
      reflexivity.
Qed.

(** X17. When the client authentication returns a [client_id], that value
    is the resolved client id and is written into the request, replacing a
    [client_id] the request came with; the other fields of the request and
    the other instances stay as they were. *)
Theorem parse_request_authn_sets_client_id `{!ClientAuthn} (req : loc)
    (auth : option string) (kw : Kwargs) (w : World)
    (auth_info : gmap string value) (client_id : value) (σ : Store)
    (m : Message) :
  verify_client req auth (store w) = (Returns auth_info, σ) →
  auth_info !! "client_id" = Some client_id →
  heap σ !! req = Some m →
  ∃ w',
    parse_request_authn req auth kw w = (Returns client_id, w') ∧
    heap (store w') !! req
      = Some (mkMessage (msg_cls m) (<["client_id" := client_id]> (msg_dict m))) ∧
    (∀ l, l ≠ req → heap (store w') !! l = heap σ !! l) ∧
    context (store w') = context σ.
Proof.
  intros Hclient Hid Hreq. eexists.
  rewrite parse_request_authn_run, Hclient, Hid.
  rewrite bind_run, lift_run. unfold setitem. simpl. rewrite Hreq. simpl.
  split; [reflexivity|]. simpl. split; [|split; [|reflexivity]].
  - apply list_lookup_insert_eq. apply (lookup_lt_Some _ _ _ Hreq).
  - intros l Hl. apply list_lookup_insert_ne. congruence.
Qed.

Lemma parse_request_authn_sets_client_id_witness :
  ∃ w',
    @parse_request_authn demo_authn 0 (Some "Bearer token:client_1") no_kwargs
      (mkWorld demo_endpoint
         (mkStore [mkMessage "Message"
                     {[ "client_id" := VStr "somebody"; "state" := VStr "S" ]}]
                  demo_context))
    = (Returns (VStr "client_1"), w') ∧
    heap (store w') !! 0
    = Some (mkMessage "Message"
              {[ "client_id" := VStr "client_1"; "state" := VStr "S" ]}).
Proof.
  set (m := mkMessage "Message"
              {[ "client_id" := VStr "somebody"; "state" := VStr "S" ]}).
  destruct (@parse_request_authn_sets_client_id demo_authn 0
              (Some "Bearer token:client_1") no_kwargs
              (mkWorld demo_endpoint (mkStore [m] demo_context))
              {[ "token" := VStr "token"; "client_id" := VStr "client_1" ]}
              (VStr "client_1") (mkStore [m] demo_context) m)
    as (w' & Hret & Hreq & _).
  - vm_compute. reflexivity.
  - vm_compute. reflexivity.
  - reflexivity.
  - exists w'. split; [exact Hret|].
    etrans; [exact Hreq|]. vm_compute. reflexivity.
Defined.

(** X18. When the client authentication returns without a [client_id],
    the resolved client id is the [client_id] of the request, or the empty
    string when the request has none; the request is not changed. *)
Theorem parse_request_authn_falls_back `{!ClientAuthn} (req : loc)
    (auth : option string) (kw : Kwargs) (w : World)
    (auth_info : gmap string value) (σ : Store) (m : Message) :
  verify_client req auth (store w) = (Returns auth_info, σ) →
  auth_info !! "client_id" = None →
  heap σ !! req = Some m →
  parse_request_authn req auth kw w
  = (Returns (default (VStr "") (msg_dict m !! "client_id")),
     mkWorld (self w) σ).
Proof.
  intros Hclient Hid Hreq.
  rewrite parse_request_authn_run, Hclient, Hid.
  rewrite (bind_returns _ _ _ _ _ (lift_load req m (mkWorld (self w) σ) Hreq)).
  destruct (msg_dict m !! "client_id"); reflexivity.
Qed.

Lemma parse_request_authn_falls_back_witness :
  let w := mkWorld demo_endpoint
             (mkStore [mkMessage "Message" {[ "client_id" := VStr "client_1" ]}]
                      demo_context) in
  @parse_request_authn demo_authn 0 (Some "Bearer token") no_kwargs w
  = (Returns (VStr "client_1"), w).
Proof.
  intros w.
  rewrite (@parse_request_authn_falls_back demo_authn 0 (Some "Bearer token")
             no_kwargs w {[ "token" := VStr "token" ]}
             (store w) (mkMessage "Message" {[ "client_id" := VStr "client_1" ]})).
  - vm_compute. reflexivity.
  - vm_compute. reflexivity.
  - vm_compute. reflexivity.
  - reflexivity.
Defined.

(** X19. An exception of the client authentication other than
    [UnknownOrNoAuthnMethod] comes out of [parse_request] as it was raised,
    also on an endpoint that requires no authentication method; the request
    is not verified. *)
Theorem parse_request_authn_failure_propagates `{!MessageLib, !ClientAuthn, !UrlLib}
    (request : RawRequest) (auth : option string) (kw : Kwargs)
    (w w1 : World) (req : loc) (e : exn) (σ : Store) :
  parse_request_decode request kw w = (Returns req, w1) →
  verify_client req auth (store w1) = (Raises e, σ) →
  exn_cls e ≠ UnknownOrNoAuthnMethod →
  parse_request request auth kw w = (Raises e, mkWorld (self w) σ).
Proof.
  intros Hdecode Hclient Hcls. unfold parse_request.
  rewrite (bind_returns _ _ _ _ _ Hdecode). apply bind_raises.
  rewrite parse_request_authn_run, Hclient.
  rewrite (bool_decide_eq_false_2 _ Hcls).
  rewrite (decode_self _ _ _ _ _ Hdecode). reflexivity.
Qed.

Lemma parse_request_authn_failure_propagates_witness :
  ∃ w',
    @parse_request demo_lib basic_authn demo_url
      (DictRequest {[ "grant_type" := VStr "authorization_code" ]})
      (Some "Basic Y2xpZW50OnNlY3JldA==") no_kwargs (world_of demo_endpoint)
    = (Raises (Exn (OtherException "AuthnFailure") "Wrong password"), w').
Proof.
  eexists.
  eapply (@parse_request_authn_failure_propagates demo_lib basic_authn demo_url
            (DictRequest {[ "grant_type" := VStr "authorization_code" ]})
            (Some "Basic Y2xpZW50OnNlY3JldA==") no_kwargs
            (world_of demo_endpoint)).
  - vm_compute. reflexivity.
  - vm_compute. reflexivity.
  - discriminate.
Defined.

(** ** Verification and what follows it *)

(** X20. When the verification fails with one of the three caught
    classes, [parse_request] stops there: the error instance that the
    constructor of the error class builds is the only thing added to the
    store, no event is recorded in the sink and no post-parse hook is
    run. *)
Theorem parse_request_failure_stops `{!MessageLib, !ClientAuthn, !UrlLib}
    (request : RawRequest) (auth : option string) (kw : Kwargs)
    (w w1 w2 : World) (req : loc) (client_id : value) (err : exn) (σ : Store)
    (m : Message) :
  parse_request_decode request kw w = (Returns req, w1) →
  parse_request_authn req auth kw w1 = (Returns client_id, w2) →
  verify req (keyjar (self w)) client_id (store w2) = (Raises err, σ) →
  exn_cls err = MissingRequiredAttribute ∨
  exn_cls err = MissingRequiredValue ∨
  exn_cls err = ValueError →
  new_message (error_cls (klass (self w)))
    {[ "error" := VStr "invalid_request";
       "error_description" := VStr (exn_str err) ]}
  = Returns m →
  parse_request request auth kw w
  = (Returns (length (heap σ)),
     mkWorld (self w) (mkStore (heap σ ++ [m]) (context σ))).
Proof.
  intros Hdecode Hauthn Hverify Hcls Hnew.
  rewrite (parse_request_stages _ _ _ _ _ _ Hdecode _ _ Hauthn).
  rewrite parse_request_verify_run.
  rewrite (authn_self _ _ _ _ _ _ Hdecode _ _ Hauthn), Hverify.
  assert (Hcaught : is_verify_error (exn_cls err) = true)
    by (destruct Hcls as [-> | [-> | ->]]; reflexivity).
  rewrite Hcaught, lift_new, Hnew. reflexivity.
Qed.

Lemma parse_request_failure_stops_witness :
  let e := mkEndpoint (with_request_cls "AuthorizationRequest") (mkKeyJar [])
             [] [] [raising_hook] no_kwargs in
  @parse_request demo_lib demo_authn demo_url
    (DictRequest {[ "scope" := VStr "openid" ]}) None no_kwargs (world_of e)
  = (Returns 1,
     mkWorld e
       (mkStore [mkMessage "AuthorizationRequest" {[ "scope" := VStr "openid" ]};
                 mkMessage "ResponseMessage"
                   {[ "error" := VStr "invalid_request";
                      "error_description" := VStr "response_type" ]}]
                demo_context)).
Proof.
  intros e.
  set (m := mkMessage "AuthorizationRequest" {[ "scope" := VStr "openid" ]}).
  apply (@parse_request_failure_stops demo_lib demo_authn demo_url
           (DictRequest {[ "scope" := VStr "openid" ]}) None no_kwargs
           (world_of e) (mkWorld e (mkStore [m] demo_context))
           (mkWorld e (mkStore [m] demo_context)) 0 (VStr "")
           (Exn MissingRequiredAttribute "response_type")
           (mkStore [m] demo_context)).
  - vm_compute. reflexivity.
  - vm_compute. reflexivity.
  - vm_compute. reflexivity.
  - left. reflexivity.
  - vm_compute. reflexivity.
Defined.

(** X21. On an endpoint without post-parse hooks and with no keyword
    argument named [client_id], a request that passes verification is
    returned as the reference that was decoded. The raw request, as it
    came in, is appended to the event sink under the label
    [Protocol request], once, when a sink is configured and its truth
    value is true; with no sink, or with a sink that is false (an empty
    one that tells its truth by its length), nothing is recorded. Nothing
    else in the store changes. *)
Theorem parse_request_records_event `{!MessageLib, !ClientAuthn, !UrlLib}
    (request : RawRequest) (auth : option string) (kw : Kwargs)
    (w w1 w2 : World) (req : loc) (client_id : value) (σ : Store) :
  post_parse_request (self w) = [] →
  kw_other kw !! "client_id" = None →
  parse_request_decode request kw w = (Returns req, w1) →
  parse_request_authn req auth kw w1 = (Returns client_id, w2) →
  verify req (keyjar (self w)) client_id (store w2) = (Returns (), σ) →
  ∃ w',
    parse_request request auth kw w = (Returns req, w') ∧
    heap (store w') = heap σ ∧
    events (context (store w'))
      = match events (context σ) with
        | Some evs =>
            if events_bool (context σ) evs
            then Some (evs ++ [("Protocol request", request)])
            else Some evs
        | None => None
        end ∧
    ctx_keyjar (context (store w')) = ctx_keyjar (context σ) ∧
    verify_ssl (context (store w')) = verify_ssl (context σ) ∧
    events_bool (context (store w')) = events_bool (context σ).
Proof.
  intros Hhooks _ Hdecode Hauthn Hverify.
  exists (mkWorld (self w) (after_event request σ)).
  split.
  - rewrite (parse_request_stages _ _ _ _ _ _ Hdecode _ _ Hauthn).
    rewrite parse_request_verify_run.
    rewrite (authn_self _ _ _ _ _ _ Hdecode _ _ Hauthn), Hverify.
    rewrite bind_run. unfold do_post_parse_request.
    rewrite (bind_returns get_self _ _ _ (self w)) by reflexivity.
    simpl. rewrite Hhooks. reflexivity.
  - unfold after_event, events_truthy, store_event. simpl.
    destruct (events (context σ)) as [evs|] eqn:Hevents; simpl.
    + destruct (events_bool (context σ) evs); simpl;
        rewrite ?Hevents; repeat split.
    + rewrite Hevents. repeat split.
Qed.

Lemma parse_request_records_event_witness :
  let earlier := [("Protocol request", DictRequest {[ "foo" := VStr "bar" ]})] in
  (∃ w',
     @parse_request demo_lib demo_authn demo_url
       (DictRequest {[ "client_id" := VStr "client_1" ]}) None no_kwargs
       (mkWorld demo_endpoint (mkStore [] (sized_sink_context earlier)))
     = (Returns 0, w') ∧
     events (context (store w'))
     = Some (earlier ++
             [("Protocol request",
               DictRequest {[ "client_id" := VStr "client_1" ]})])) ∧
  (∃ w',
     @parse_request demo_lib demo_authn demo_url
       (DictRequest {[ "client_id" := VStr "client_1" ]}) None no_kwargs
       (mkWorld demo_endpoint (mkStore [] (sized_sink_context [])))
     = (Returns 0, w') ∧
     events (context (store w')) = Some []).
Proof.
  intros earlier.
  set (m := mkMessage "Message" {[ "client_id" := VStr "client_1" ]}).
  split.
  - destruct (@parse_request_records_event demo_lib demo_authn demo_url
                (DictRequest {[ "client_id" := VStr "client_1" ]}) None no_kwargs
                (mkWorld demo_endpoint (mkStore [] (sized_sink_context earlier)))
                (mkWorld demo_endpoint (mkStore [m] (sized_sink_context earlier)))
                (mkWorld demo_endpoint (mkStore [m] (sized_sink_context earlier)))
                0 (VStr "") (mkStore [m] (sized_sink_context earlier)))
      as (w' & Hret & _ & Hevents & _).
    + reflexivity.
    + reflexivity.
    + vm_compute. reflexivity.
    + vm_compute. reflexivity.
    + vm_compute. reflexivity.
    + exists w'. split; [exact Hret|]. etrans; [exact Hevents|]. reflexivity.
  - destruct (@parse_request_records_event demo_lib demo_authn demo_url
                (DictRequest {[ "client_id" := VStr "client_1" ]}) None no_kwargs
                (mkWorld demo_endpoint (mkStore [] (sized_sink_context [])))
                (mkWorld demo_endpoint (mkStore [m] (sized_sink_context [])))
                (mkWorld demo_endpoint (mkStore [m] (sized_sink_context [])))
                0 (VStr "") (mkStore [m] (sized_sink_context [])))
      as (w' & Hret & _ & Hevents & _).
    + reflexivity.
    + reflexivity.
    + vm_compute. reflexivity.
    + vm_compute. reflexivity.
    + vm_compute. reflexivity.
    + exists w'. split; [exact Hret|]. etrans; [exact Hevents|]. reflexivity.
Defined.

(** X22. An exception raised by a post-parse hook comes out of
    [parse_request] as it was raised; the request had passed verification
    and the event was already recorded. *)
Theorem parse_request_hook_exception_propagates
    `{!MessageLib, !ClientAuthn, !UrlLib}
    (request : RawRequest) (auth : option string) (kw : Kwargs)
    (w w1 w2 w3 : World) (req : loc) (client_id : value) (σ : Store) (e : exn) :
  parse_request_decode request kw w = (Returns req, w1) →
  parse_request_authn req auth kw w1 = (Returns client_id, w2) →
  verify req (keyjar (self w)) client_id (store w2) = (Returns (), σ) →
  do_post_parse_request req client_id kw
    (mkWorld (self w) (after_event request σ))
    = (Raises e, w3) →
  parse_request request auth kw w = (Raises e, w3).
Proof.
  intros Hdecode Hauthn Hverify Hchain.
  rewrite (parse_request_stages _ _ _ _ _ _ Hdecode _ _ Hauthn).
  rewrite parse_request_verify_run.
  rewrite (authn_self _ _ _ _ _ _ Hdecode _ _ Hauthn), Hverify.
  apply (bind_raises _ _ _ _ _ Hchain).
Qed.

Lemma parse_request_hook_exception_propagates_witness :
  let e := mkEndpoint Endpoint_class (mkKeyJar []) [] []
             [tagging_hook; raising_hook] no_kwargs in
  ∃ w',
    @parse_request demo_lib demo_authn demo_url
      (DictRequest {[ "foo" := VStr "bar" ]}) None no_kwargs (world_of e)
    = (Raises (Exn (OtherException "ToOld") "Too old"), w') ∧
    events (context (store w'))
    = Some [("Protocol request", DictRequest {[ "foo" := VStr "bar" ]})].
Proof.
  intros e.
  set (m := mkMessage "Message" {[ "foo" := VStr "bar" ]}).
  eexists. split.
  - eapply (@parse_request_hook_exception_propagates demo_lib demo_authn demo_url
              (DictRequest {[ "foo" := VStr "bar" ]}) None no_kwargs
              (world_of e) (mkWorld e (mkStore [m] demo_context))
              (mkWorld e (mkStore [m] demo_context)) _ 0 (VStr "")
              (mkStore [m] demo_context)).
    + vm_compute. reflexivity.
    + vm_compute. reflexivity.
    + vm_compute. reflexivity.
    + vm_compute. reflexivity.
  - vm_compute. reflexivity.
Defined.
